(** * AI Concierge Agent: the conversation state machine of [app/app.py]

    A shallow embedding of [chat_handler] and of the functions it calls
    ([base_questions_for_flow], [gemini], [finalize_diet],
    [finalize_shopping], [finalize_travel]) together with the properties
    of the conversation state machine.

    Modelling conventions.
    - A Python [str] is a Rocq [string] holding its UTF-8 encoding.
      [str.strip] removes every character Python counts as white space,
      the ASCII ones and the Unicode spaces, each in its UTF-8 form.
      [str.lower] maps the ASCII capitals, the Kelvin sign (to "k") and
      the dotted capital I (to "i" and a combining dot), the only
      characters whose lowercase form has ASCII letters; Python maps the
      other cased letters outside ASCII to letters outside ASCII, and
      here they stay as they are, so that the lowercased text has the
      same ASCII words as in Python, which is all the program asks of
      it.
    - The [state] dict is a record of optional fields: a missing key is
      [None] and reading it raises [KeyError].
    - Python integers are [Z]; list indexing, [list.insert] and slice
      assignment follow Python's rules for negative and out-of-range
      positions.
    - The module-level values [metrics] and [memory_bank] are whatever
      [load_json] returned at start-up, a [Json] value: a missing key
      raises [KeyError], a value of the wrong kind [TypeError].  They,
      their files, the log file of [logger], the requests sent to the
      Gemini client and the outcomes of the file writes still to come
      form the [World] threaded through every call (ExtLib's [stateT]
      over the error monad).  A write that fails raises [OSError].  An
      exception ends the call; what the world is after it is not
      modelled.
    - What the Gemini client answers and what [datetime.utcnow] returns
      during one turn are given by an [Oracle]. *)

From Stdlib Require Import String Ascii List ZArith Lia Bool QArith.
From ExtLib Require Import Structures.Monad Structures.MonadState Structures.MonadExc.
From ExtLib Require Import Data.Monads.StateMonad Data.Monads.EitherMonad.
Import ListNotations.
Import MonadNotation.
Local Open Scope monad_scope.
Local Open Scope string_scope.
Local Open Scope Z_scope.

#[local] Existing Instance Monad_stateT.

(** ** Python strings *)

Module PyStr.

(** Is the byte [c] the number [n]? *)
Definition byte_is (c : ascii) (n : N) : bool := (N_of_ascii c =? n)%N.

(** [c.lower()] on one ASCII character. *)
Definition lower_ascii (c : ascii) : ascii :=
  let n := N_of_ascii c in
  if ((65 <=? n) && (n <=? 90))%N then ascii_of_N (n + 32) else c.

(** [s.lower()].  U+0130, the bytes C4 B0, becomes "i" and U+0307, the
    bytes CC 87; U+212A, the bytes E2 84 AA, becomes "k". *)
Fixpoint lower (s : string) : string :=
  match s with
  | EmptyString => EmptyString
  | String c1 r1 =>
      match r1 with
      | String c2 r2 =>
          if byte_is c1 196 && byte_is c2 176 then
            String "i" (String (ascii_of_N 204) (String (ascii_of_N 135)
                                                        (lower r2)))
          else
            match r2 with
            | String c3 r3 =>
                if byte_is c1 226 && byte_is c2 132 && byte_is c3 170
                then String "k" (lower r3)
                else String (lower_ascii c1) (lower r1)
            | EmptyString => String (lower_ascii c1) (lower r1)
            end
      | EmptyString => String (lower_ascii c1) (lower r1)
      end
  end.

(** [c.isspace()] on the ASCII range: TAB, LF, VT, FF, CR, the four
    separators FS, GS, RS, US and the space. *)
Definition isspace (c : ascii) : bool :=
  let n := N_of_ascii c in
  (((9 <=? n) && (n <=? 13)) || ((28 <=? n) && (n <=? 32)))%N.

(** The white space of two bytes: U+0085 (C2 85) and U+00A0 (C2 A0). *)
Definition isspace2 (c1 c2 : ascii) : bool :=
  byte_is c1 194 && (byte_is c2 133 || byte_is c2 160).

(** The white space of three bytes: U+1680 (E1 9A 80), U+2000 to U+200A
    (E2 80 80 to E2 80 8A), U+2028 and U+2029 (E2 80 A8, E2 80 A9),
    U+202F (E2 80 AF), U+205F (E2 81 9F) and U+3000 (E3 80 80). *)
Definition isspace3 (c1 c2 c3 : ascii) : bool :=
  let n3 := N_of_ascii c3 in
  (byte_is c1 225 && byte_is c2 154 && byte_is c3 128)
  || (byte_is c1 226 && byte_is c2 128
      && (((128 <=? n3) && (n3 <=? 138))%N
          || byte_is c3 168 || byte_is c3 169 || byte_is c3 175))
  || (byte_is c1 226 && byte_is c2 129 && byte_is c3 159)
  || (byte_is c1 227 && byte_is c2 128 && byte_is c3 128).

(** [s.lstrip()] *)
Fixpoint lstrip (s : string) : string :=
  match s with
  | EmptyString => EmptyString
  | String c1 r1 =>
      if isspace c1 then lstrip r1
      else
        match r1 with
        | String c2 r2 =>
            if isspace2 c1 c2 then lstrip r2
            else
              match r2 with
              | String c3 r3 => if isspace3 c1 c2 c3 then lstrip r3 else s
              | EmptyString => s
              end
        | EmptyString => s
        end
  end.

(** [s] has white space only. *)
Definition blank (s : string) : bool :=
  match lstrip s with
  | EmptyString => true
  | String _ _ => false
  end.

(** [s.rstrip()]: the text before the longest blank end of [s]. *)
Fixpoint rstrip (s : string) : string :=
  match s with
  | EmptyString => EmptyString
  | String c r => if blank s then EmptyString else String c (rstrip r)
  end.

(** [s.strip()] *)
Definition strip (s : string) : string := rstrip (lstrip s).

(** [needle in hay] for strings: [needle] occurs as a substring. *)
Fixpoint contains (needle hay : string) : bool :=
  String.prefix needle hay
  || match hay with
     | EmptyString => false
     | String _ r => contains needle r
     end.

(** [x in [s1, ..., sn]] for a list of strings. *)
Definition mem (x : string) (l : list string) : bool :=
  existsb (String.eqb x) l.

End PyStr.

(** ** Python exceptions and lists *)

Inductive Exn : Type :=
| KeyError (key : string)
| IndexError
| TypeError
| OSError.

Module PyList.
Section Ops.
Context {A : Type}.

(** [l[i]]: a negative [i] counts from the end; outside
    [-len(l) <= i < len(l)] the access raises [IndexError]. *)
Definition index (l : list A) (i : Z) : Exn + A :=
  let n := Z.of_nat (length l) in
  let j := if i <? 0 then i + n else i in
  if (j <? 0) || (n <=? j) then inl IndexError
  else match nth_error l (Z.to_nat j) with
       | Some x => inr x
       | None => inl IndexError
       end.

(** The position at which [l.insert(i, x)] and [l[i:i] = xs] put the
    new elements: a negative [i] counts from the end, and the result
    is clamped to [0 .. len(l)]. *)
Definition position (l : list A) (i : Z) : nat :=
  let n := Z.of_nat (length l) in
  let j := if i <? 0 then i + n else i in
  Z.to_nat (Z.min (Z.max j 0) n).

(** [l[i:i] = xs] *)
Definition splice (l : list A) (i : Z) (xs : list A) : list A :=
  firstn (position l i) l ++ xs ++ skipn (position l i) l.

(** [l.insert(i, x)] *)
Definition insert (l : list A) (i : Z) (x : A) : list A :=
  splice l i [x].

(** [len(l)] *)
Definition len (l : list A) : Z := Z.of_nat (length l).
End Ops.
End PyList.

(** ** Python dicts with string keys (insertion ordered) *)

Module PyDict.
Section Ops.
Context {V : Type}.

Definition t := list (string * V).

(** [d.get(k)] *)
Fixpoint get (d : t) (k : string) : option V :=
  match d with
  | [] => None
  | (k', v) :: r => if String.eqb k k' then Some v else get r k
  end.

(** [d[k] = v]: an existing key keeps its place, a new one goes last. *)
Fixpoint set (d : t) (k : string) (v : V) : t :=
  match d with
  | [] => [(k, v)]
  | (k', v') :: r =>
      if String.eqb k k' then (k', v) :: r else (k', v') :: set r k v
  end.

Definition keys (d : t) : list string := map fst d.
End Ops.
Arguments t : clear implicits.
End PyDict.

(** ** JSON values, as [json.load] returns them *)

(** The numbers the program writes are integers.  No induction
    principle is asked for: the values are only inspected. *)
#[local] Unset Elimination Schemes.
Inductive Json : Type :=
| JNull
| JBool (b : bool)
| JInt (n : Z)
| JStr (s : string)
| JList (l : list Json)
| JDict (d : list (string * Json)).
#[local] Set Elimination Schemes.

(** [j[k]] with a string [k]: only a dict can be read so. *)
Definition getitem (j : Json) (k : string) : Exn + Json :=
  match j with
  | JDict d =>
      match PyDict.get d k with
      | Some v => inr v
      | None => inl (KeyError k)
      end
  | _ => inl TypeError
  end.

(** [j[k] = v] with a string [k]. *)
Definition setitem (j : Json) (k : string) (v : Json) : Exn + Json :=
  match j with
  | JDict d => inr (JDict (PyDict.set d k v))
  | _ => inl TypeError
  end.

(** [v + 1]; [True] and [False] count as 1 and 0. *)
Definition plus_one (v : Json) : Exn + Json :=
  match v with
  | JInt n => inr (JInt (n + 1))
  | JBool b => inr (JInt (if b then 2 else 1))
  | _ => inl TypeError
  end.

(** [j[k] += 1] *)
Definition incr (j : Json) (k : string) : Exn + Json :=
  match getitem j k with
  | inl e => inl e
  | inr v =>
      match plus_one v with
      | inl e => inl e
      | inr v' => setitem j k v'
      end
  end.

(** [j[k1][k2] += 1]: the inner dict is updated in place. *)
Definition incr2 (j : Json) (k1 k2 : string) : Exn + Json :=
  match getitem j k1 with
  | inl e => inl e
  | inr inner =>
      match incr inner k2 with
      | inl e => inl e
      | inr inner' => setitem j k1 inner'
      end
  end.

(** The value of [answers.get(k)]. *)
Definition json_of_get (v : option string) : Json :=
  match v with
  | Some s => JStr s
  | None => JNull
  end.

(** ** Data of the conversation *)

(** A question is the tuple [(key, prompt)]. *)
Definition Slot : Type := string * string.

(** One chat message, [{"role": ..., "content": ...}]. *)
Record Message : Type := mkMessage { role : string; content : string }.

Definition History : Type := list Message.

(** [history.append(m)] *)
Definition append (history : History) (m : Message) : History :=
  (history ++ [m])%list.

(** [if history is None: history = []] *)
Definition or_empty (history : option History) : History :=
  match history with
  | None => []
  | Some h => h
  end.

Definition user_msg (text : string) : Message := mkMessage "user" text.
Definition assistant_msg (text : string) : Message := mkMessage "assistant" text.

(** The [state] dict.  Each field is one key; [None] is a missing key. *)
Record State : Type := mkState {
  stage : option string;
  lang : option string;
  flow : option string;
  questions : option (list Slot);
  answers : option (PyDict.t string);
  q_index : option Z
}.

Definition set_stage (s : State) (v : string) : State :=
  mkState (Some v) (lang s) (flow s) (questions s) (answers s) (q_index s).
Definition set_lang (s : State) (v : string) : State :=
  mkState (stage s) (Some v) (flow s) (questions s) (answers s) (q_index s).
Definition set_flow (s : State) (v : string) : State :=
  mkState (stage s) (lang s) (Some v) (questions s) (answers s) (q_index s).
Definition set_questions (s : State) (v : list Slot) : State :=
  mkState (stage s) (lang s) (flow s) (Some v) (answers s) (q_index s).
Definition set_answers (s : State) (v : PyDict.t string) : State :=
  mkState (stage s) (lang s) (flow s) (questions s) (Some v) (q_index s).
Definition set_q_index (s : State) (v : Z) : State :=
  mkState (stage s) (lang s) (flow s) (questions s) (answers s) (Some v).

(** [{"stage": "choose_language"}] *)
Definition initial_state : State :=
  mkState (Some "choose_language") None None None None None.

(** [{"stage": "choose_flow", "lang": lang}] (line 432) *)
Definition reset_state (l : string) : State :=
  mkState (Some "choose_flow") (Some l) None None None None.

(** ** The world outside the conversation *)

(** The three finalizers, each with its own prompt template. *)
Inductive Agent : Type := DietAgent | ShoppingAgent | TravelAgent.

(** The prompt of a finalizer: its f-string template is instantiated with
    the language and the answers dict (printed by [json.dumps]). *)
Record Prompt : Type := mkPrompt {
  template : Agent;
  prompt_lang : string;
  prompt_answers : PyDict.t string
}.

(** One call of [client.models.generate_content]. *)
Record Request : Type := mkRequest {
  contents : Prompt;
  temperature : Q;
  max_output_tokens : Z
}.

(** A JSON file: absent, not parsable, or holding a value. *)
Inductive File : Type :=
| Missing
| Garbage
| Holds (j : Json).

(** The two files written by [save_json]. *)
Inductive Path : Type := METRICS_PATH | MEMORY_PATH.

(** [disk] lists the outcomes of the writes to come, [false] for a write
    that fails; writes beyond the list succeed. *)
Record World : Type := mkWorld {
  metrics : Json;
  metrics_file : File;
  memory_bank : Json;
  memory_file : File;
  sent : list Request;
  log_file : list string;
  disk : list bool
}.

(** What [generate_content] does: it returns a response [r], of which
    the program reads [r.text] (absent: [None]) and [str(r)], or it
    raises an exception printing as [e]. *)
Inductive Reply : Type :=
| Response (text : option string) (repr : string)
| Failure (e : string).

Record Oracle : Type := mkOracle {
  reply : Reply;
  utcnow_iso : string
}.

(** ** The monad: the world is threaded, an exception ends the call *)

Definition M : Type -> Type := stateT World (sum Exn).

(** [run c w] is [inr (result, world')] or [inl exception]. *)
Definition run {A : Type} (c : M A) (w : World) : Exn + (A * World) :=
  runStateT c w.

(** [d[k]] on a key of the state dict. *)
Definition getkey {A : Type} (k : string) (v : option A) : M A :=
  match v with
  | Some a => ret a
  | None => raise (KeyError k)
  end.

Definition lift_exn {A : Type} (r : Exn + A) : M A :=
  match r with
  | inl e => raise e
  | inr a => ret a
  end.

Definition set_metrics (w : World) (m : Json) : World :=
  mkWorld m (metrics_file w) (memory_bank w) (memory_file w) (sent w)
          (log_file w) (disk w).

Definition set_memory_bank (w : World) (m : Json) : World :=
  mkWorld (metrics w) (metrics_file w) m (memory_file w) (sent w)
          (log_file w) (disk w).

(** The world after a write of [data] to [path] that succeeded. *)
Definition written (w : World) (path : Path) (data : Json) : World :=
  match path with
  | METRICS_PATH =>
      mkWorld (metrics w) (Holds data) (memory_bank w) (memory_file w)
              (sent w) (log_file w) (tl (disk w))
  | MEMORY_PATH =>
      mkWorld (metrics w) (metrics_file w) (memory_bank w) (Holds data)
              (sent w) (log_file w) (tl (disk w))
  end.

(** Lines 73-79: the default is returned for a file that is missing or
    cannot be read or parsed. *)
Definition load_json (file : File) (default : Json) : Json :=
  match file with
  | Holds j => j
  | Missing | Garbage => default
  end.

(** Lines 81-83: nothing is caught, a failing write raises. *)
Definition save_json (path : Path) (data : Json) : M unit :=
  w <- get ;;
  match disk w with
  | false :: _ => raise OSError
  | _ => put (written w path data)
  end.

(** [metrics[k] += 1] *)
Definition metrics_incr (k : string) : M unit :=
  w <- get ;;
  m <- lift_exn (incr (metrics w) k) ;;
  put (set_metrics w m).

(** [metrics[k1][k2] += 1] *)
Definition metrics_incr2 (k1 k2 : string) : M unit :=
  w <- get ;;
  m <- lift_exn (incr2 (metrics w) k1 k2) ;;
  put (set_metrics w m).

(** [memory_bank[k] = v] *)
Definition memory_set (k : string) (v : Json) : M unit :=
  w <- get ;;
  m <- lift_exn (setitem (memory_bank w) k v) ;;
  put (set_memory_bank w m).

(** [save_json(METRICS_PATH, metrics)] *)
Definition save_metrics : M unit :=
  w <- get ;;
  save_json METRICS_PATH (metrics w).

(** [save_json(MEMORY_PATH, memory_bank)] *)
Definition save_memory : M unit :=
  w <- get ;;
  save_json MEMORY_PATH (memory_bank w).

(** The call [client.models.generate_content(...)] leaves the process. *)
Definition send (r : Request) : M unit :=
  modify (fun w => mkWorld (metrics w) (metrics_file w)
                           (memory_bank w) (memory_file w) (sent w ++ [r])
                           (log_file w) (disk w)) ;;
  ret tt.

(** The dict of lines 45-52. *)
Definition metrics_schema : Json :=
  JDict [ ("sessions_created", JInt 0);
          ("flows_completed",
           JDict [("diet", JInt 0); ("shopping", JInt 0); ("travel", JInt 0)]);
          ("total_messages", JInt 0);
          ("gemini_calls", JInt 0);
          ("errors", JInt 0);
          ("last_reset", JNull) ].

(** Lines 37-68 and 85-86: the files that are missing are created, the
    first log record is written, and the two values are loaded.  The
    arguments are the two files as the process finds them and the
    outcomes of the writes to come. *)
Definition startup (metrics_found memory_found : File) (writes : list bool)
  : World :=
  let memory_now :=
    match memory_found with Missing => Holds (JDict []) | f => f end in
  let metrics_now :=
    match metrics_found with Missing => Holds metrics_schema | f => f end in
  mkWorld (load_json metrics_now (JDict [])) metrics_now
          (load_json memory_now (JDict [])) memory_now
          [] ["Agent initialized."] writes.

(** ** The program *)

(** The newline of the Python literals. *)
Definition nl : string := String (ascii_of_nat 10) EmptyString.

(** Lines 98-114.  The counter and its file are updated before the call;
    an exception of the client becomes the returned text. *)
Definition gemini (o : Oracle) (prompt : Prompt) (temp : Q) (max_tokens : Z)
  : M string :=
  metrics_incr "gemini_calls" ;;
  save_metrics ;;
  send (mkRequest prompt temp max_tokens) ;;
  match reply o with
  | Response text repr =>
      match text with
      | Some t => if String.eqb t "" then ret repr else ret t
      | None => ret repr
      end
  | Failure e =>
      metrics_incr "errors" ;;
      save_metrics ;;
      ret ("⚠️ Gemini Error: " ++ e)
  end.

(** Lines 118-123. *)
Definition LANG_CHOICES : PyDict.t string :=
  [ ("english", "English");
    ("hindi", "Hindi");
    ("marathi", "Marathi");
    ("telugu", "Telugu") ].

(** Lines 152-188. *)
Definition base_questions_for_flow (flow : string) : list Slot :=
  if String.eqb flow "diet" then
    [ ("age", "Your age?");
      ("gender", "Male / Female / Other?");
      ("height_cm", "Height in cm?");
      ("weight_kg", "Weight in kg?");
      ("goal", "Goal: Lose / Maintain / Gain?");
      ("activity", "Activity level (sedentary / light / moderate / active)?");
      ("diet_type", "What type of diet do you follow? (Vegetarian / Eggetarian / Non-Vegetarian / Vegan)");
      ("diet_pref", "Any dietary preferences or allergies? (If none, type 'no')") ]
  else if String.eqb flow "shopping" then
    [ ("currency", "Currency? (INR / USD / EUR / GBP / AED / CAD)");
      ("budget", "Total shopping budget?");
      ("category", "Type of shopping? (Clothes, Groceries, Electronics, Home, Kids, Gifts)");
      ("purpose", "Purpose? (Daily / Festival / Travel / Wedding / Gift)");
      ("members", "How many people are you shopping for?");
      ("preferences", "Any preferences? (brand/size/style/etc.)");
      ("have", "Do you already have some items? If yes, list them or type 'no'.") ]
  else if String.eqb flow "travel" then
    [ ("currency", "Currency for budget (INR / USD / EUR / GBP / AED / CAD)?");
      ("budget", "Total travel budget?");
      ("origin", "Where are you traveling from?");
      ("members", "How many travelers?");
      ("country", "Destination country (or 'not sure')");
      ("days", "How many days?");
      ("pref", "Trip type: beach / adventure / city / nature / budget / luxury?") ]
  else [].

(** Lines 194-231. *)
Definition finalize_diet (o : Oracle) (answers : PyDict.t string) (lang : string)
  : M string :=
  res <- gemini o (mkPrompt DietAgent lang answers) (35 # 100) 6000 ;;
  memory_set "last_diet_pref" (json_of_get (PyDict.get answers "diet_pref")) ;;
  memory_set "last_diet_type" (json_of_get (PyDict.get answers "diet_type")) ;;
  memory_set "last_diet_update" (JStr (utcnow_iso o)) ;;
  save_memory ;;
  metrics_incr2 "flows_completed" "diet" ;;
  save_metrics ;;
  ret res.

(** Lines 234-260. *)
Definition finalize_shopping (o : Oracle) (answers : PyDict.t string) (lang : string)
  : M string :=
  res <- gemini o (mkPrompt ShoppingAgent lang answers) (35 # 100) 5000 ;;
  memory_set "last_shopping_budget"
    (JDict [("budget", json_of_get (PyDict.get answers "budget"));
            ("currency", json_of_get (PyDict.get answers "currency"))]) ;;
  memory_set "last_shopping_update" (JStr (utcnow_iso o)) ;;
  save_memory ;;
  metrics_incr2 "flows_completed" "shopping" ;;
  save_metrics ;;
  ret res.

(** Lines 263-291. *)
Definition finalize_travel (o : Oracle) (answers : PyDict.t string) (lang : string)
  : M string :=
  res <- gemini o (mkPrompt TravelAgent lang answers) (40 # 100) 6000 ;;
  memory_set "last_travel_origin" (json_of_get (PyDict.get answers "origin")) ;;
  memory_set "last_travel_update" (JStr (utcnow_iso o)) ;;
  save_memory ;;
  metrics_incr2 "flows_completed" "travel" ;;
  save_metrics ;;
  ret res.

(** The list of line 377. *)
Definition allergy_phrases : list string :=
  ["yes"; "y"; "allergies"; "i have allergies"; "i'm allergic"; "allergy"].

(** The list of lines 396-400. *)
Definition extra_qs : list Slot :=
  [ ("for_whom", "Who is this clothing for? (Men / Women / Kids / Baby)");
    ("occasion", "Occasion? (Casual / Office / Party / Wedding / Travel)");
    ("sizes", "Sizes or measurements?") ].

(** Lines 366-407 of [chat_handler]: record the answer, advance the
    cursor and apply the follow-up rules.  [inl] is the early return of
    line 387; [inr] carries the state with which line 410 is reached. *)
Definition collect_answer (message : string) (history : History) (state : State)
  : M ((History * State) + State) :=
  idx <- getkey "q_index" (q_index state) ;;
  qs <- getkey "questions" (questions state) ;;
  slot <- lift_exn (PyList.index qs idx) ;;
  let key := fst slot in
  ans <- getkey "answers" (answers state) ;;
  let state := set_answers state (PyDict.set ans key (PyStr.strip message)) in
  let state := set_q_index state (idx + 1) in
  fl <- getkey "flow" (flow state) ;;
  if String.eqb fl "diet" && String.eqb key "diet_pref"
     && PyStr.mem (PyStr.strip (PyStr.lower message)) allergy_phrases
  then
    let history :=
      append history (assistant_msg
        "Please specify your allergies (e.g., dairy, peanuts, gluten, soy, egg).") in
    let state :=
      set_questions state
        (PyList.insert qs (idx + 1) ("allergy_list", "Please specify your allergies.")) in
    ret (inl (history, state))
  else
    if String.eqb fl "shopping" && String.eqb key "category" then
      let cat := PyStr.lower message in
      let qs1 :=
        if PyStr.contains "cloth" cat then PyList.splice qs (idx + 1) extra_qs
        else qs in
      let qs2 :=
        if PyStr.contains "grocery" cat
        then PyList.splice qs1 (idx + 1)
               [("frequency", "Grocery frequency (Weekly / Monthly)?")]
        else qs1 in
      ret (inr (set_questions state qs2))
    else ret (inr state).

(** Lines 410-439 of [chat_handler]: ask the next question, or hand the
    answers to the finalizer of the flow and reset the state. *)
Definition next_or_finalize (o : Oracle) (history : History) (state : State)
  : M (History * State) :=
  i <- getkey "q_index" (q_index state) ;;
  qs <- getkey "questions" (questions state) ;;
  if i <? PyList.len qs then
    slot <- lift_exn (PyList.index qs i) ;;
    ret (append history (assistant_msg (snd slot)), state)
  else
    let history :=
      append history (assistant_msg "Preparing your results… please wait.") in
    fl <- getkey "flow" (flow state) ;;
    l <- getkey "lang" (lang state) ;;
    ans <- getkey "answers" (answers state) ;;
    result <-
      (if String.eqb fl "diet" then finalize_diet o ans l
       else if String.eqb fl "shopping" then finalize_shopping o ans l
       else finalize_travel o ans l) ;;
    let history := append history (assistant_msg result) in
    let state := reset_state l in
    let history :=
      append history (assistant_msg
        ("What else can I help with in " ++ l ++ "? (diet / shopping / travel)")) in
    ret (history, state).

(** Lines 298-447. *)
Definition chat_handler (o : Oracle) (message : string)
  (history : option History) (state : option State) : M (History * State) :=
  let state :=
    match state with
    | None => initial_state
    | Some s => match stage s with None => initial_state | Some _ => s end
    end in
  let history := or_empty history in
  metrics_incr "total_messages" ;;
  save_metrics ;;
  let history := append history (user_msg message) in
  st <- getkey "stage" (stage state) ;;
  if String.eqb st "choose_language" then
    let msg := PyStr.strip (PyStr.lower message) in
    match PyDict.get LANG_CHOICES msg with
    | Some l =>
        let state := set_lang state l in
        let state := set_stage state "choose_flow" in
        ret (append history (assistant_msg
               ("Language set to **" ++ l ++ "**." ++ nl ++ nl ++
                "How can I help you today?" ++ nl ++
                "• Diet Plan" ++ nl ++ "• Shopping Help" ++ nl ++
                "• Travel Planning" ++ nl ++ nl ++
                "Type: **diet**, **shopping**, or **travel**")),
             state)
    | None =>
        ret (append history (assistant_msg
               "Please select a language: English / Hindi / Marathi / Telugu"),
             state)
    end
  else if String.eqb st "choose_flow" then
    let msg := PyStr.strip (PyStr.lower message) in
    if PyStr.mem msg ["diet"; "shopping"; "travel"] then
      let state := set_flow state msg in
      let state := set_questions state (base_questions_for_flow msg) in
      let state := set_answers state [] in
      let state := set_q_index state 0 in
      let state := set_stage state "collecting" in
      metrics_incr "sessions_created" ;;
      save_metrics ;;
      slot <- lift_exn (PyList.index (base_questions_for_flow msg) 0) ;;
      ret (append history (assistant_msg (snd slot)), state)
    else
      ret (append history (assistant_msg "Please type: diet / shopping / travel"),
           state)
  else if String.eqb st "collecting" then
    r <- collect_answer message history state ;;
    match r with
    | inl early => ret early
    | inr state => next_or_finalize o history state
    end
  else
    ret (append history (assistant_msg
           "I didn't understand. Please type diet / shopping / travel."),
         state).

(** The session loop of the user interface (lines 573-578): each message
    is handled with the history and the state the previous turn
    returned. *)
Fixpoint session (turns : list (Oracle * string)) (history : History)
  (state : State) : M (History * State) :=
  match turns with
  | [] => ret (history, state)
  | (o, message) :: rest =>
      r <- chat_handler o message (Some history) (Some state) ;;
      session rest (fst r) (snd r)
  end.

(** The world of a first start: no file is found, every write
    succeeds. *)
Definition fresh_world : World := startup Missing Missing [].
(** * Vocabulary of the properties *)

(** The integer under the key [k] of a dict, 0 when there is none. *)
Definition counter (j : Json) (k : string) : Z :=
  match getitem j k with
  | inr (JInt n) => n
  | _ => 0
  end.

(** [j] is a dict with an integer under [k]. *)
Definition is_counter (j : Json) (k : string) : bool :=
  match getitem j k with
  | inr (JInt _) => true
  | _ => false
  end.

(** [j] with the integer under [k] increased, when there is one. *)
Definition bump (j : Json) (k : string) : Json :=
  match incr j k with
  | inr j' => j'
  | inl _ => j
  end.

(** [j] with the integer under [k1] and [k2] increased, when there is
    one. *)
Definition bump2 (j : Json) (k1 k2 : string) : Json :=
  match incr2 j k1 k2 with
  | inr j' => j'
  | inl _ => j
  end.

(** The metrics dict has the counters the program updates. *)
Definition metrics_ok (m : Json) : bool :=
  is_counter m "sessions_created" && is_counter m "total_messages"
  && is_counter m "gemini_calls" && is_counter m "errors"
  && match getitem m "flows_completed" with
     | inr fc =>
         is_counter fc "diet" && is_counter fc "shopping"
         && is_counter fc "travel"
     | inl _ => false
     end.

Definition is_dict (j : Json) : bool :=
  match j with
  | JDict _ => true
  | _ => false
  end.

(** A healthy world: the metrics dict has its counters, the memory bank
    is a dict, and no write to come fails. *)
Definition healthy (w : World) : Prop :=
  metrics_ok (metrics w) = true
  /\ is_dict (memory_bank w) = true
  /\ forallb (fun b : bool => b) (disk w) = true.

(** Lines 308-309: the message is counted and the metrics are saved. *)
Definition count_message : M unit :=
  metrics_incr "total_messages" ;;
  save_metrics.

(** Lines 351-352: the session is counted and the metrics are saved. *)
Definition count_session : M unit :=
  metrics_incr "sessions_created" ;;
  save_metrics.

(** The world after lines 308-309, when they succeed. *)
Definition after_message (w : World) : World :=
  let m := bump (metrics w) "total_messages" in
  written (set_metrics w m) METRICS_PATH m.

(** The world after lines 351-352, when they succeed. *)
Definition after_selection (w : World) : World :=
  let m := bump (metrics w) "sessions_created" in
  written (set_metrics w m) METRICS_PATH m.

(** The text [gemini] returns. *)
Definition reply_text (o : Oracle) : string :=
  match reply o with
  | Response (Some t) repr => if String.eqb t "" then repr else t
  | Response None repr => repr
  | Failure e => "⚠️ Gemini Error: " ++ e
  end.

(** The finalizer chosen by lines 422-427. *)
Definition agent_of (fl : string) : Agent :=
  if String.eqb fl "diet" then DietAgent
  else if String.eqb fl "shopping" then ShoppingAgent
  else TravelAgent.

(** The finalizer call of lines 422-427. *)
Definition finalize (o : Oracle) (fl : string) (ans : PyDict.t string)
  (l : string) : M string :=
  if String.eqb fl "diet" then finalize_diet o ans l
  else if String.eqb fl "shopping" then finalize_shopping o ans l
  else finalize_travel o ans l.

(** The request each finalizer sends. *)
Definition request_of (a : Agent) (l : string) (ans : PyDict.t string)
  : Request :=
  match a with
  | DietAgent => mkRequest (mkPrompt DietAgent l ans) (35 # 100) 6000
  | ShoppingAgent => mkRequest (mkPrompt ShoppingAgent l ans) (35 # 100) 5000
  | TravelAgent => mkRequest (mkPrompt TravelAgent l ans) (40 # 100) 6000
  end.

(** The number of completed flows, over the three counters. *)
Definition completed_in (m : Json) : Z :=
  match getitem m "flows_completed" with
  | inr fc => counter fc "diet" + counter fc "shopping" + counter fc "travel"
  | inl _ => 0
  end.

Definition completed (w : World) : Z := completed_in (metrics w).

(** What a dispatch leaves in the world: one request sent, one call and
    one completed flow counted, an error counted when the client failed,
    the metrics file equal to the metrics, nothing logged. *)
Record dispatched (o : Oracle) (fl l : string) (ans : PyDict.t string)
  (w w' : World) : Prop := mkDispatched {
  dispatched_sent : sent w' = (sent w ++ [request_of (agent_of fl) l ans])%list;
  dispatched_calls :
    counter (metrics w') "gemini_calls" = counter (metrics w) "gemini_calls" + 1;
  dispatched_completed : completed w' = completed w + 1;
  dispatched_errors :
    counter (metrics w') "errors" =
    counter (metrics w) "errors"
    + match reply o with Failure _ => 1 | _ => 0 end;
  dispatched_messages :
    counter (metrics w') "total_messages"
    = counter (metrics w) "total_messages";
  dispatched_saved : metrics_file w' = Holds (metrics w');
  dispatched_log : log_file w' = log_file w;
  dispatched_healthy : healthy w'
}.

(** A step that leaves the metrics, the requests and the log alone, in a
    world that stays healthy. *)
Definition quiet (w w' : World) : Prop :=
  healthy w'
  /\ metrics w' = metrics w /\ metrics_file w' = metrics_file w
  /\ sent w' = sent w /\ log_file w' = log_file w.

(** A state of stage [collecting]: flow, queue, answers and cursor are
    present; the language is the one chosen earlier. *)
Definition collecting (ol : option string) (fl : string) (qs : list Slot)
  (ans : PyDict.t string) (idx : Z) : State :=
  mkState (Some "collecting") ol (Some fl) (Some qs) (Some ans) (Some idx).

(** The slot inserted by line 385. *)
Definition allergy_slot : Slot :=
  ("allergy_list", "Please specify your allergies.").

(** The slot inserted by lines 405-407. *)
Definition frequency_slot : Slot :=
  ("frequency", "Grocery frequency (Weekly / Monthly)?").

(** The test of lines 374-377. *)
Definition allergy_rule (fl key message : string) : bool :=
  String.eqb fl "diet" && String.eqb key "diet_pref"
  && PyStr.mem (PyStr.strip (PyStr.lower message)) allergy_phrases.

(** The queue after lines 391-407. *)
Definition shopping_rules (fl key message : string) (idx : Z)
  (qs : list Slot) : list Slot :=
  if String.eqb fl "shopping" && String.eqb key "category" then
    let qs1 :=
      if PyStr.contains "cloth" (PyStr.lower message)
      then PyList.splice qs (idx + 1) extra_qs else qs in
    if PyStr.contains "grocery" (PyStr.lower message)
    then PyList.splice qs1 (idx + 1) [frequency_slot] else qs1
  else qs.

(** The history with which the turn starts its work (lines 304-312). *)
Definition heard (h : option History) (message : string) : History :=
  append (or_empty h) (user_msg message).

(** The answers dict after line 368. *)
Definition answered (ans : PyDict.t string) (slot : Slot) (message : string)
  : PyDict.t string :=
  PyDict.set ans (fst slot) (PyStr.strip message).

(** The states a conversation goes through: the state of a new session
    (line 539) and every state a turn returns. *)
Inductive reachable : State -> Prop :=
| reachable_initial : reachable initial_state
| reachable_turn s o message h w h' s' w' :
    reachable s ->
    run (chat_handler o message h (Some s)) w = inr (h', s', w') ->
    reachable s'.

(** The history a completing turn returns when the finalizer returned
    [res] (lines 416-437). *)
Definition completed_history (h : option History) (message l res : string)
  : History :=
  append
    (append
       (append (heard h message)
          (assistant_msg "Preparing your results… please wait."))
       (assistant_msg res))
    (assistant_msg
       ("What else can I help with in " ++ l ++
        "? (diet / shopping / travel)")).

(** The diet queue with the allergy question. *)
Definition diet_questions_allergy : list Slot :=
  (base_questions_for_flow "diet" ++ [allergy_slot])%list.

(** The shopping queue once [category] is answered: the base slots with
    the follow-ups of the rules that matched, [frequency] first. *)
Definition shopping_questions (cloth grocery : bool) : list Slot :=
  (firstn 3 (base_questions_for_flow "shopping")
   ++ (if grocery then [frequency_slot] else [])
   ++ (if cloth then extra_qs else [])
   ++ skipn 3 (base_questions_for_flow "shopping"))%list.

(** The queues a conversation can have, flow by flow: the diet queue
    gets the allergy slot when the cursor moves to it; the shopping queue
    has no follow-up as long as the cursor is on [category] or before. *)
Definition queue_ok (fl : string) (qs : list Slot) (idx : Z) : Prop :=
  (fl = "diet"
   /\ (qs = base_questions_for_flow "diet"
       \/ (qs = diet_questions_allergy /\ idx = 8)))
  \/ (fl = "shopping"
      /\ exists cloth grocery,
           qs = shopping_questions cloth grocery
           /\ (idx <= 2 -> cloth = false /\ grocery = false))
  \/ (fl = "travel" /\ qs = base_questions_for_flow "travel").

(** The shape of the states of a conversation. *)
Inductive wf_state : State -> Prop :=
| wf_initial : wf_state initial_state
| wf_choose_flow l : wf_state (reset_state l)
| wf_collecting l fl qs ans idx :
    0 <= idx < PyList.len qs ->
    queue_ok fl qs idx ->
    wf_state (collecting (Some l) fl qs ans idx).

(** What one turn does to the cursor. *)
Definition cursor_step (s : State) (message : string) (s' : State) : Prop :=
  (forall c, stage s = Some "collecting" -> stage s' = Some "collecting" ->
             q_index s = Some c -> q_index s' = Some (c + 1))
  /\ (q_index s' = Some 0 ->
      stage s = Some "choose_flow"
      /\ In (PyStr.strip (PyStr.lower message)) ["diet"; "shopping"; "travel"]).

(** The answer triggers the allergy follow-up (lines 374-377). *)
Definition allergy_follow_up (fl key message : string) : Prop :=
  fl = "diet" /\ key = "diet_pref"
  /\ In (PyStr.strip (PyStr.lower message)) allergy_phrases.

(** The answer triggers a shopping follow-up (lines 391-407). *)
Definition shopping_follow_up (fl key message : string) : Prop :=
  fl = "shopping" /\ key = "category"
  /\ (PyStr.contains "cloth" (PyStr.lower message) = true
      \/ PyStr.contains "grocery" (PyStr.lower message) = true).

(** The turn reaches line 415: the slot under the cursor exists, the
    test of line 377 fails and so does the test of line 410. *)
Definition completes_flow (fl : string) (qs : list Slot) (idx : Z)
  (slot : Slot) (message : string) : Prop :=
  PyList.index qs idx = inr slot
  /\ allergy_rule fl (fst slot) message = false
  /\ PyList.len (shopping_rules fl (fst slot) message idx qs) <= idx + 1.

(** The call [base_questions_for_flow(flow)] as a step of the program:
    it touches nothing of the world. *)
Definition call_base_questions_for_flow (fl : string) : M (list Slot) :=
  ret (base_questions_for_flow fl).

(** A call is loud when it raises or writes to the log. *)
Definition loud {A : Type} (c : M A) (w : World) : Prop :=
  match run c w with
  | inl _ => True
  | inr (_, w') => log_file w' <> log_file w
  end.

(** Two oracles for the examples: a client that answers, and one that
    fails. *)
Definition oracle_up : Oracle :=
  mkOracle (Response (Some "Here is your plan.") "GenerateContentResponse")
           "2025-11-30T10:00:00".

(** The turns that bring a new session to the last diet question. *)
Definition diet_turns : list (Oracle * string) :=
  map (pair oracle_up)
      ["english"; "diet"; "31"; "Female"; "168"; "61"; "Maintain"; "light";
       "Vegetarian"].

Definition diet_answers : PyDict.t string :=
  [ ("age", "31"); ("gender", "Female"); ("height_cm", "168");
    ("weight_kg", "61"); ("goal", "Maintain"); ("activity", "light");
    ("diet_type", "Vegetarian") ].

(** The state in which the last base question of the diet flow is open. *)
Definition diet_at_diet_pref : State :=
  collecting (Some "English") "diet" (base_questions_for_flow "diet")
             diet_answers 7.

(** The turns that bring a new session to the category question. *)
Definition shopping_turns : list (Oracle * string) :=
  map (pair oracle_up) ["english"; "shopping"; "INR"; "5000"].

Definition shopping_at_category : State :=
  collecting (Some "English") "shopping" (base_questions_for_flow "shopping")
             [("currency", "INR"); ("budget", "5000")] 2.

(** * Properties *)

Lemma mem_In x l : PyStr.mem x l = true <-> In x l.
Proof.
  unfold PyStr.mem. rewrite existsb_exists. split.
  - intros (y & Hy & E). apply String.eqb_eq in E. now subst.
  - intros H. exists x. split; [assumption | apply String.eqb_refl].
Qed.

Lemma mem_not_In x l : PyStr.mem x l = false <-> ~ In x l.
Proof.
  rewrite <- mem_In. destruct (PyStr.mem x l); split; congruence.
Qed.

(** ** Equations of the monad *)

Lemma run_ret {A} (a : A) w : run (ret a) w = inr (a, w).
Proof. reflexivity. Qed.

Lemma run_bind {A B} (c : M A) (k : A -> M B) w :
  run (bind c k) w =
  match run c w with
  | inl e => inl e
  | inr (a, w') => run (k a) w'
  end.
Proof.
  unfold run. cbn. destruct (runStateT c w) as [e | [a w']]; reflexivity.
Qed.

Lemma run_raise {A} e w : run (raise e : M A) w = inl e.
Proof. reflexivity. Qed.

Lemma run_getkey {A} k (a : A) w : run (getkey k (Some a)) w = inr (a, w).
Proof. reflexivity. Qed.

Lemma run_getkey_missing {A} k w :
  run (getkey k (@None A)) w = inl (KeyError k).
Proof. reflexivity. Qed.

Lemma run_lift_ok {A} (a : A) w : run (lift_exn (inr a)) w = inr (a, w).
Proof. reflexivity. Qed.

Lemma run_lift_raise {A} e w : run (lift_exn (@inl Exn A e)) w = inl e.
Proof. reflexivity. Qed.

Lemma run_metrics_incr k w :
  run (metrics_incr k) w =
  match incr (metrics w) k with
  | inl e => inl e
  | inr m => inr (tt, set_metrics w m)
  end.
Proof. unfold metrics_incr, run. cbn. destruct (incr _ _); reflexivity. Qed.

Lemma run_metrics_incr2 k1 k2 w :
  run (metrics_incr2 k1 k2) w =
  match incr2 (metrics w) k1 k2 with
  | inl e => inl e
  | inr m => inr (tt, set_metrics w m)
  end.
Proof. unfold metrics_incr2, run. cbn. destruct (incr2 _ _ _); reflexivity. Qed.

Lemma run_memory_set k v w :
  run (memory_set k v) w =
  match setitem (memory_bank w) k v with
  | inl e => inl e
  | inr m => inr (tt, set_memory_bank w m)
  end.
Proof. unfold memory_set, run. cbn. destruct (setitem _ _ _); reflexivity. Qed.

Lemma run_save_json path data w :
  run (save_json path data) w =
  match disk w with
  | false :: _ => inl OSError
  | _ => inr (tt, written w path data)
  end.
Proof.
  unfold save_json, run. cbn. destruct (disk w) as [| [] ?]; reflexivity.
Qed.

Lemma run_save_metrics w :
  run save_metrics w = run (save_json METRICS_PATH (metrics w)) w.
Proof. reflexivity. Qed.

Lemma run_save_memory w :
  run save_memory w = run (save_json MEMORY_PATH (memory_bank w)) w.
Proof. reflexivity. Qed.

Lemma run_send r w :
  run (send r) w =
  inr (tt, mkWorld (metrics w) (metrics_file w) (memory_bank w)
                   (memory_file w) (sent w ++ [r])%list (log_file w)
                   (disk w)).
Proof. reflexivity. Qed.

Create Rewrite HintDb run.
#[local] Hint Rewrite @run_ret @run_bind @run_raise @run_getkey
  @run_getkey_missing @run_lift_ok @run_lift_raise : run.

(** Evaluate the comparisons of string literals in the goal. *)
Ltac eval_eqb :=
  repeat match goal with
    | |- context [String.eqb ?a ?b] =>
        let v := eval vm_compute in (String.eqb a b) in
        match v with
        | true => change (String.eqb a b) with true
        | false => change (String.eqb a b) with false
        end
    end.

(** Run the monadic code as far as its tests are decided. *)
Ltac mrun :=
  repeat (progress (autorewrite with run; cbv beta iota; eval_eqb;
                    cbn [fst snd andb orb stage lang flow questions answers
                         q_index set_stage set_lang set_flow set_questions
                         set_answers set_q_index])).

(** ** Dicts and counters *)

Lemma get_set_same {V} (d : PyDict.t V) k v :
  PyDict.get (PyDict.set d k v) k = Some v.
Proof.
  induction d as [| [k' v'] d IH]; cbn.
  - now rewrite String.eqb_refl.
  - destruct (String.eqb_spec k k') as [-> | Hne]; cbn.
    + now rewrite String.eqb_refl.
    + apply String.eqb_neq in Hne. now rewrite Hne.
Qed.

Lemma get_set_other {V} (d : PyDict.t V) k k' v :
  k' <> k -> PyDict.get (PyDict.set d k v) k' = PyDict.get d k'.
Proof.
  intros Hne. induction d as [| [k0 v0] d IH]; cbn.
  - apply String.eqb_neq in Hne. now rewrite Hne.
  - destruct (String.eqb_spec k k0) as [-> | Hk]; cbn.
    + apply String.eqb_neq in Hne. now rewrite Hne.
    + destruct (String.eqb k' k0); [reflexivity | exact IH].
Qed.

Lemma get_None {V} (d : PyDict.t V) k :
  PyDict.get d k = None <-> ~ In k (PyDict.keys d).
Proof.
  induction d as [| [k' v] d IH]; cbn; [tauto |].
  destruct (String.eqb_spec k k') as [-> | Hne].
  - split; [discriminate | intros H; exfalso; apply H; now left].
  - rewrite IH. split; intros H; [intros [E | Hin]; [congruence | tauto] | tauto].
Qed.

(** A counter can be increased, and only it changes. *)
Lemma incr_counter j k :
  is_counter j k = true ->
  incr j k = inr (bump j k)
  /\ (forall k', is_counter (bump j k) k' = is_counter j k')
  /\ (forall k', counter (bump j k) k'
                 = counter j k' + if String.eqb k' k then 1 else 0)
  /\ (forall k', k' <> k -> getitem (bump j k) k' = getitem j k').
Proof.
  unfold is_counter, bump, counter, incr, getitem.
  destruct j as [| | | | | d]; try discriminate.
  destruct (PyDict.get d k) as [[| | n | | |] |] eqn:E; try discriminate.
  intros _. cbn. split; [reflexivity |].
  split; [| split]; intros k'.
  - destruct (String.eqb_spec k' k) as [-> | Hne].
    + rewrite get_set_same, E. reflexivity.
    + rewrite get_set_other by assumption. reflexivity.
  - destruct (String.eqb_spec k' k) as [-> | Hne].
    + rewrite get_set_same, E. reflexivity.
    + rewrite get_set_other by assumption.
      destruct (PyDict.get d k') as [[] |]; lia.
  - intros Hne. rewrite get_set_other by assumption. reflexivity.
Qed.

(** ** Healthy worlds *)

Lemma metrics_ok_bump m k :
  metrics_ok m = true -> is_counter m k = true ->
  metrics_ok (bump m k) = true
  /\ completed_in (bump m k) = completed_in m.
Proof.
  intros Hok Hk.
  destruct (incr_counter m k Hk) as (_ & Hsame & _ & Hother).
  assert (Hne : "flows_completed" <> k).
  { intros <-. unfold metrics_ok in Hok.
    rewrite !andb_true_iff in Hok. destruct Hok as (_ & Hfc).
    unfold is_counter in Hk.
    destruct (getitem m "flows_completed") as [e | [| | | | |]];
      discriminate. }
  unfold metrics_ok, completed_in in *.
  rewrite !Hsame, (Hother _ Hne). split; [exact Hok | reflexivity].
Qed.

Lemma metrics_ok_counters m :
  metrics_ok m = true ->
  is_counter m "sessions_created" = true
  /\ is_counter m "total_messages" = true
  /\ is_counter m "gemini_calls" = true
  /\ is_counter m "errors" = true.
Proof.
  unfold metrics_ok. rewrite !andb_true_iff. tauto.
Qed.

(** A flow counter can be increased, and only it changes. *)
Lemma incr2_flow m k :
  metrics_ok m = true -> In k ["diet"; "shopping"; "travel"] ->
  incr2 m "flows_completed" k = inr (bump2 m "flows_completed" k)
  /\ metrics_ok (bump2 m "flows_completed" k) = true
  /\ completed_in (bump2 m "flows_completed" k) = completed_in m + 1
  /\ (forall k', k' <> "flows_completed" ->
        counter (bump2 m "flows_completed" k) k' = counter m k').
Proof.
  intros Hok Hin. unfold metrics_ok in Hok.
  rewrite !andb_true_iff in Hok.
  destruct Hok as ((((H1 & H2) & H3) & H4) & Hfc).
  destruct (getitem m "flows_completed") as [e | fc] eqn:Efc;
    [discriminate |].
  rewrite !andb_true_iff in Hfc. destruct Hfc as ((Hd & Hs) & Ht).
  assert (Hk : is_counter fc k = true)
    by (destruct Hin as [<- | [<- | [<- | []]]]; assumption).
  destruct (incr_counter fc k Hk) as (Hincr & Hsame & Hcount & _).
  assert (Hm : exists d, m = JDict d).
  { destruct m; try discriminate Efc. eauto. }
  destruct Hm as (d & ->).
  assert (E2 : incr2 (JDict d) "flows_completed" k
               = inr (JDict (PyDict.set d "flows_completed" (bump fc k)))).
  { unfold incr2. rewrite Efc, Hincr. reflexivity. }
  unfold bump2. rewrite E2. split; [reflexivity |].
  assert (Hother : forall k', k' <> "flows_completed" ->
            getitem (JDict (PyDict.set d "flows_completed" (bump fc k))) k'
            = getitem (JDict d) k').
  { intros k' Hne. cbn. rewrite get_set_other by assumption. reflexivity. }
  assert (Hnew : getitem (JDict (PyDict.set d "flows_completed" (bump fc k)))
                         "flows_completed" = inr (bump fc k)).
  { cbn. rewrite get_set_same. reflexivity. }
  split; [| split].
  - unfold metrics_ok, is_counter.
    rewrite !Hother by discriminate. rewrite Hnew.
    unfold is_counter in H1, H2, H3, H4. rewrite H1, H2, H3, H4.
    fold (is_counter (bump fc k) "diet") (is_counter (bump fc k) "shopping")
         (is_counter (bump fc k) "travel").
    rewrite !Hsame, Hd, Hs, Ht. reflexivity.
  - unfold completed_in. rewrite Hnew, Efc, !Hcount.
    destruct Hin as [<- | [<- | [<- | []]]]; cbn; lia.
  - intros k' Hne. unfold counter. rewrite Hother by assumption. reflexivity.
Qed.

Lemma healthy_disk w :
  healthy w ->
  match disk w with false :: _ => False | _ => True end
  /\ forallb (fun b : bool => b) (tl (disk w)) = true.
Proof.
  intros (_ & _ & H). destruct (disk w) as [| [] r]; cbn in *;
    try discriminate; auto.
Qed.

Lemma run_save_json_healthy path data w :
  healthy w -> run (save_json path data) w = inr (tt, written w path data).
Proof.
  intros H. rewrite run_save_json.
  destruct (healthy_disk w H) as (Hd & _).
  destruct (disk w) as [| [] r]; [reflexivity | reflexivity | contradiction].
Qed.

Lemma healthy_written w path data :
  healthy w -> healthy (written w path data).
Proof.
  intros H. destruct (healthy_disk w H) as (_ & Hd).
  destruct H as (Hm & Hb & _). destruct path; repeat split; assumption.
Qed.

Lemma healthy_set_metrics w m :
  healthy w -> metrics_ok m = true -> healthy (set_metrics w m).
Proof. intros (_ & Hb & Hd) Hm. repeat split; assumption. Qed.

(** Counting a message in a healthy world. *)
Lemma count_message_healthy w :
  healthy w ->
  run count_message w = inr (tt, after_message w)
  /\ healthy (after_message w).
Proof.
  intros H. pose proof H as (Hm & _).
  destruct (metrics_ok_counters _ Hm) as (_ & Htm & _).
  destruct (incr_counter _ _ Htm) as (Hincr & _).
  destruct (metrics_ok_bump _ _ Hm Htm) as (Hok & _).
  assert (H1 : healthy (set_metrics w (bump (metrics w) "total_messages")))
    by (apply healthy_set_metrics; assumption).
  unfold count_message, after_message. cbv zeta. mrun.
  rewrite run_metrics_incr, Hincr. mrun.
  rewrite run_save_metrics, run_save_json_healthy by assumption.
  split; [reflexivity | apply healthy_written; assumption].
Qed.

(** Counting a session in a healthy world. *)
Lemma count_session_healthy w :
  healthy w ->
  run count_session w = inr (tt, after_selection w)
  /\ healthy (after_selection w).
Proof.
  intros H. pose proof H as (Hm & _).
  destruct (metrics_ok_counters _ Hm) as (Hsc & _).
  destruct (incr_counter _ _ Hsc) as (Hincr & _).
  destruct (metrics_ok_bump _ _ Hm Hsc) as (Hok & _).
  assert (H1 : healthy (set_metrics w (bump (metrics w) "sessions_created")))
    by (apply healthy_set_metrics; assumption).
  unfold count_session, after_selection. cbv zeta. mrun.
  rewrite run_metrics_incr, Hincr. mrun.
  rewrite run_save_metrics, run_save_json_healthy by assumption.
  split; [reflexivity | apply healthy_written; assumption].
Qed.

(** What counting a message changes. *)
Lemma after_message_facts w :
  healthy w ->
  counter (metrics (after_message w)) "total_messages"
  = counter (metrics w) "total_messages" + 1
  /\ (forall k, k <> "total_messages" ->
        counter (metrics (after_message w)) k = counter (metrics w) k)
  /\ completed (after_message w) = completed w
  /\ sent (after_message w) = sent w
  /\ log_file (after_message w) = log_file w
  /\ memory_bank (after_message w) = memory_bank w
  /\ metrics_file (after_message w) = Holds (metrics (after_message w)).
Proof.
  intros (Hm & _).
  destruct (metrics_ok_counters _ Hm) as (_ & Htm & _).
  destruct (incr_counter _ _ Htm) as (_ & _ & Hcount & _).
  destruct (metrics_ok_bump _ _ Hm Htm) as (_ & Hcompleted).
  unfold after_message, completed. cbn.
  split; [rewrite Hcount; reflexivity |].
  split; [| repeat split; assumption].
  intros k Hk. rewrite Hcount. apply String.eqb_neq in Hk. rewrite Hk. lia.
Qed.

(** ** [chat_handler], stage by stage *)

Lemma run_bind_ext {A B} (c : M A) (k1 k2 : A -> M B) w :
  (forall a w1, run (k1 a) w1 = run (k2 a) w1) ->
  run (bind c k1) w = run (bind c k2) w.
Proof.
  intros H. rewrite !run_bind. destruct (run c w) as [e | [a w1]]; auto.
Qed.

Lemma run_bind_assoc {A B C} (c : M A) (k1 : A -> M B) (k2 : B -> M C) w :
  run (bind (bind c k1) k2) w = run (bind c (fun a => bind (k1 a) k2)) w.
Proof.
  rewrite !run_bind. destruct (run c w) as [e | [a w1]]; [reflexivity |].
  rewrite run_bind. reflexivity.
Qed.

(** The turn begins by counting the message. *)
Lemma chat_handler_counts o message h s w st :
  stage s = Some st ->
  run (chat_handler o message h (Some s)) w =
  run (count_message ;;
       let history := append (or_empty h) (user_msg message) in
       if String.eqb st "choose_language" then
         match PyDict.get LANG_CHOICES (PyStr.strip (PyStr.lower message)) with
         | Some l =>
             ret (append history (assistant_msg
                    ("Language set to **" ++ l ++ "**." ++ nl ++ nl ++
                     "How can I help you today?" ++ nl ++
                     "• Diet Plan" ++ nl ++ "• Shopping Help" ++ nl ++
                     "• Travel Planning" ++ nl ++ nl ++
                     "Type: **diet**, **shopping**, or **travel**")),
                  set_stage (set_lang s l) "choose_flow")
         | None =>
             ret (append history (assistant_msg
                    "Please select a language: English / Hindi / Marathi / Telugu"),
                  s)
         end
       else if String.eqb st "choose_flow" then
         let msg := PyStr.strip (PyStr.lower message) in
         if PyStr.mem msg ["diet"; "shopping"; "travel"] then
           count_session ;;
           slot <- lift_exn (PyList.index (base_questions_for_flow msg) 0) ;;
           ret (append history (assistant_msg (snd slot)),
                mkState (Some "collecting") (lang s) (Some msg)
                        (Some (base_questions_for_flow msg)) (Some [])
                        (Some 0))
         else
           ret (append history
                  (assistant_msg "Please type: diet / shopping / travel"),
                s)
       else if String.eqb st "collecting" then
         r <- collect_answer message history s ;;
         match r with
         | inl early => ret early
         | inr s' => next_or_finalize o history s'
         end
       else
         ret (append history (assistant_msg
                "I didn't understand. Please type diet / shopping / travel."),
              s)) w.
Proof.
  intros Hs. unfold chat_handler, count_message, count_session.
  rewrite Hs. cbv beta iota zeta. rewrite Hs.
  rewrite run_bind_assoc. apply run_bind_ext. intros [] w1.
  apply run_bind_ext. intros [] w2. mrun.
  destruct (String.eqb st "choose_language"); [reflexivity |].
  destruct (String.eqb st "choose_flow"); [| reflexivity].
  destruct (PyStr.mem _ _); [| reflexivity].
  rewrite run_bind_assoc. reflexivity.
Qed.

(** In a healthy world the count succeeds. *)
Lemma run_counted {A} (c : M A) w :
  healthy w ->
  run (count_message ;; c) w = run c (after_message w).
Proof.
  intros H. rewrite run_bind.
  rewrite (proj1 (count_message_healthy w H)). reflexivity.
Qed.

(** A turn that returns has counted its message. *)
Lemma run_counted_inv {A} (c : M A) w a w' :
  run (count_message ;; c) w = inr (a, w') ->
  exists w1, run c w1 = inr (a, w').
Proof.
  rewrite run_bind. destruct (run count_message w) as [e | [[] w1]];
    [discriminate | eauto].
Qed.

Lemma base_questions_first msg :
  PyStr.mem msg ["diet"; "shopping"; "travel"] = true ->
  exists slot rest, base_questions_for_flow msg = slot :: rest.
Proof.
  intros H. apply mem_In in H.
  destruct H as [<- | [<- | [<- | []]]]; vm_compute; eauto.
Qed.

Lemma chat_handler_choose_language o message h s w :
  stage s = Some "choose_language" ->
  run (chat_handler o message h (Some s)) w =
  run (count_message ;;
       let history := append (or_empty h) (user_msg message) in
       match PyDict.get LANG_CHOICES (PyStr.strip (PyStr.lower message)) with
       | Some l =>
           ret (append history (assistant_msg
                  ("Language set to **" ++ l ++ "**." ++ nl ++ nl ++
                   "How can I help you today?" ++ nl ++
                   "• Diet Plan" ++ nl ++ "• Shopping Help" ++ nl ++
                   "• Travel Planning" ++ nl ++ nl ++
                   "Type: **diet**, **shopping**, or **travel**")),
                set_stage (set_lang s l) "choose_flow")
       | None =>
           ret (append history (assistant_msg
                  "Please select a language: English / Hindi / Marathi / Telugu"),
                s)
       end) w.
Proof.
  intros Hs. rewrite (chat_handler_counts o message h s w _ Hs).
  reflexivity.
Qed.

Lemma chat_handler_choose_flow o message h s w :
  stage s = Some "choose_flow" ->
  run (chat_handler o message h (Some s)) w =
  run (count_message ;;
       let history := append (or_empty h) (user_msg message) in
       let msg := PyStr.strip (PyStr.lower message) in
       if PyStr.mem msg ["diet"; "shopping"; "travel"] then
         count_session ;;
         match base_questions_for_flow msg with
         | slot :: _ =>
             ret (append history (assistant_msg (snd slot)),
                  mkState (Some "collecting") (lang s) (Some msg)
                          (Some (base_questions_for_flow msg)) (Some [])
                          (Some 0))
         | [] => raise IndexError
         end
       else
         ret (append history
                (assistant_msg "Please type: diet / shopping / travel"),
              s)) w.
Proof.
  intros Hs. rewrite (chat_handler_counts o message h s w _ Hs).
  apply run_bind_ext. intros [] w1. cbv zeta. eval_eqb. cbv iota.
  destruct (PyStr.mem _ _) eqn:Hm; [| reflexivity].
  apply run_bind_ext. intros [] w2.
  destruct (base_questions_first _ Hm) as (slot & rest & E).
  rewrite E. unfold PyList.index. cbn. reflexivity.
Qed.

Lemma chat_handler_collecting o message h s w :
  stage s = Some "collecting" ->
  run (chat_handler o message h (Some s)) w =
  run (count_message ;;
       let history := append (or_empty h) (user_msg message) in
       r <- collect_answer message history s ;;
       match r with
       | inl early => ret early
       | inr s' => next_or_finalize o history s'
       end) w.
Proof.
  intros Hs. rewrite (chat_handler_counts o message h s w _ Hs).
  reflexivity.
Qed.

Lemma chat_handler_fallback o message h s w st :
  stage s = Some st ->
  st <> "choose_language" -> st <> "choose_flow" -> st <> "collecting" ->
  run (chat_handler o message h (Some s)) w =
  run (count_message ;;
       ret (append (append (or_empty h) (user_msg message))
              (assistant_msg
                 "I didn't understand. Please type diet / shopping / travel."),
            s)) w.
Proof.
  intros Hs H1 H2 H3. rewrite (chat_handler_counts o message h s w _ Hs).
  apply String.eqb_neq in H1, H2, H3. rewrite H1, H2, H3. reflexivity.
Qed.

(** A missing state, or one without a stage, is replaced by the initial
    state (lines 301-302). *)
Lemma chat_handler_no_state o message h w :
  run (chat_handler o message h None) w =
  run (chat_handler o message h (Some initial_state)) w.
Proof. reflexivity. Qed.

Lemma chat_handler_no_stage o message h s w :
  stage s = None ->
  run (chat_handler o message h (Some s)) w =
  run (chat_handler o message h (Some initial_state)) w.
Proof. intros Hs. unfold chat_handler. rewrite Hs. reflexivity. Qed.

(** ** Python list operations within range *)

Lemma index_in_range {A} (l : list A) i :
  0 <= i < PyList.len l ->
  exists x, nth_error l (Z.to_nat i) = Some x /\ PyList.index l i = inr x.
Proof.
  unfold PyList.len, PyList.index. intros Hi.
  destruct (Z.ltb_spec i 0); [lia |].
  destruct (Z.ltb_spec i 0); [lia |].
  destruct (Z.leb_spec (Z.of_nat (length l)) i); [lia |]. cbn.
  destruct (nth_error l (Z.to_nat i)) as [x |] eqn:E; [eauto |].
  apply nth_error_None in E. lia.
Qed.

Lemma index_nth {A} (l : list A) i x :
  0 <= i -> nth_error l (Z.to_nat i) = Some x -> PyList.index l i = inr x.
Proof.
  intros Hi E.
  assert (Hlt : (Z.to_nat i < length l)%nat)
    by (apply nth_error_Some; congruence).
  destruct (index_in_range l i) as (y & E' & ->);
    [unfold PyList.len; lia | congruence].
Qed.

Lemma index_nil {A} i : PyList.index (@nil A) i = inl IndexError.
Proof.
  unfold PyList.index. cbn.
  destruct (Z.ltb_spec i 0).
  - rewrite Z.add_0_r. destruct (Z.ltb_spec i 0); [reflexivity | lia].
  - destruct (Z.ltb_spec i 0); [lia |].
    destruct (Z.leb_spec 0 i); [reflexivity | lia].
Qed.

Lemma position_in_range {A} (l : list A) i :
  0 <= i <= PyList.len l -> PyList.position l i = Z.to_nat i.
Proof.
  unfold PyList.len, PyList.position. intros Hi.
  destruct (Z.ltb_spec i 0); [lia |]. f_equal. lia.
Qed.

(** Inserting right after a valid position [i >= 0]. *)
Lemma splice_after {A} (l : list A) i xs :
  0 <= i < PyList.len l ->
  PyList.splice l (i + 1) xs =
  (firstn (S (Z.to_nat i)) l ++ xs ++ skipn (S (Z.to_nat i)) l)%list.
Proof.
  intros Hi. unfold PyList.splice.
  rewrite position_in_range by lia.
  replace (Z.to_nat (i + 1)) with (S (Z.to_nat i)) by lia. reflexivity.
Qed.

Lemma splice_length {A} (l : list A) i xs :
  length (PyList.splice l i xs) = (length l + length xs)%nat.
Proof.
  unfold PyList.splice.
  rewrite !length_app, length_firstn, length_skipn. lia.
Qed.

Lemma splice_len {A} (l : list A) i xs :
  PyList.len (PyList.splice l i xs) = PyList.len l + PyList.len xs.
Proof. unfold PyList.len. rewrite splice_length. lia. Qed.

(** The first inserted element sits at the position after [i]. *)
Lemma splice_after_nth {A} (l : list A) i x xs :
  0 <= i < PyList.len l ->
  nth_error (PyList.splice l (i + 1) (x :: xs)) (Z.to_nat (i + 1)) = Some x.
Proof.
  intros Hi. rewrite splice_after by assumption.
  assert (Hl : length (firstn (S (Z.to_nat i)) l) = Z.to_nat (i + 1)).
  { rewrite length_firstn. unfold PyList.len in Hi. lia. }
  rewrite nth_error_app2 by lia. rewrite Hl, Nat.sub_diag. reflexivity.
Qed.

(** The elements up to position [i] stay where they are. *)
Lemma splice_after_before {A} (l : list A) i xs n :
  0 <= i < PyList.len l -> (n <= Z.to_nat i)%nat ->
  nth_error (PyList.splice l (i + 1) xs) n = nth_error l n.
Proof.
  intros Hi Hn. rewrite splice_after by assumption.
  unfold PyList.len in Hi.
  rewrite nth_error_app1 by (rewrite length_firstn; lia).
  rewrite nth_error_firstn.
  destruct (Nat.ltb_spec n (S (Z.to_nat i))); [reflexivity | lia].
Qed.

(** ** The finalizers *)


(** [gemini] in a healthy world: it returns its text, whatever the
    client did. *)
Lemma gemini_healthy o p t mx w :
  healthy w ->
  exists w',
    run (gemini o p t mx) w = inr (reply_text o, w')
    /\ healthy w'
    /\ sent w' = (sent w ++ [mkRequest p t mx])%list
    /\ counter (metrics w') "gemini_calls"
       = counter (metrics w) "gemini_calls" + 1
    /\ counter (metrics w') "errors"
       = counter (metrics w) "errors"
         + match reply o with Failure _ => 1 | _ => 0 end
    /\ counter (metrics w') "total_messages"
       = counter (metrics w) "total_messages"
    /\ completed w' = completed w
    /\ metrics_file w' = Holds (metrics w')
    /\ memory_bank w' = memory_bank w
    /\ log_file w' = log_file w.
Proof.
  intros H. pose proof H as (Hm & Hb & Hd).
  destruct (metrics_ok_counters _ Hm) as (_ & _ & Hgc & _).
  destruct (incr_counter _ _ Hgc) as (Hincr & _ & Hcount & _).
  destruct (metrics_ok_bump _ _ Hm Hgc) as (Hok1 & Hcompleted1).
  set (m1 := bump (metrics w) "gemini_calls") in *.
  set (w1 := set_metrics w m1).
  assert (H1 : healthy w1) by (apply healthy_set_metrics; assumption).
  set (w2 := written w1 METRICS_PATH m1).
  assert (H2 : healthy w2) by (apply healthy_written; assumption).
  set (w3 := mkWorld (metrics w2) (metrics_file w2) (memory_bank w2)
                     (memory_file w2) (sent w2 ++ [mkRequest p t mx])%list
                     (log_file w2) (disk w2)).
  assert (H3 : healthy w3) by exact H2.
  assert (Hstart : forall A (k : M A),
            run (metrics_incr "gemini_calls" ;; save_metrics ;;
                 send (mkRequest p t mx) ;; k) w = run k w3).
  { intros A k. mrun. rewrite run_metrics_incr, Hincr. mrun.
    fold m1 w1. rewrite run_save_metrics.
    rewrite (run_save_json_healthy _ _ w1 H1). mrun.
    rewrite run_send. reflexivity. }
  unfold gemini, reply_text. rewrite Hstart.
  destruct (reply o) as [[t' |] repr | e].
  - exists w3. split; [destruct (String.eqb t' ""); reflexivity |].
    split; [exact H3 |]. cbn.
    rewrite !Hcount. cbn. repeat split; try lia; try exact Hcompleted1.
  - exists w3. split; [reflexivity |].
    split; [exact H3 |]. cbn.
    rewrite !Hcount. cbn. repeat split; try lia; try exact Hcompleted1.
  - destruct (metrics_ok_counters _ Hok1) as (_ & _ & _ & Her).
    destruct (incr_counter _ _ Her) as (Hincr2 & _ & Hcount2 & _).
    destruct (metrics_ok_bump _ _ Hok1 Her) as (Hok2 & Hcompleted2).
    set (m2 := bump m1 "errors") in *.
    set (w4 := set_metrics w3 m2).
    assert (H4 : healthy w4) by (apply healthy_set_metrics; assumption).
    exists (written w4 METRICS_PATH m2).
    split.
    + mrun. rewrite run_metrics_incr. change (metrics w3) with m1.
      rewrite Hincr2. mrun. fold m2 w4. rewrite run_save_metrics.
      rewrite (run_save_json_healthy _ _ w4 H4). reflexivity.
    + split; [apply healthy_written; exact H4 |]. cbn.
      unfold completed. cbn. rewrite !Hcount2, !Hcount. cbn.
      repeat split; try lia; try congruence.
Qed.

Lemma quiet_refl w : healthy w -> quiet w w.
Proof. intros H. split; [exact H | repeat split]. Qed.

Lemma quiet_trans w1 w2 w3 : quiet w1 w2 -> quiet w2 w3 -> quiet w1 w3.
Proof.
  intros (_ & A1 & A2 & A3 & A4) (H & B1 & B2 & B3 & B4).
  split; [exact H | repeat split; congruence].
Qed.

Lemma memory_set_quiet k v w :
  healthy w ->
  exists w', run (memory_set k v) w = inr (tt, w') /\ quiet w w'.
Proof.
  intros H. pose proof H as (Hm & Hb & Hd).
  rewrite run_memory_set.
  destruct (memory_bank w) as [| | | | | d] eqn:E; try discriminate Hb.
  cbn. eexists. split; [reflexivity |].
  repeat split; assumption || reflexivity.
Qed.

Lemma save_memory_quiet w :
  healthy w ->
  exists w', run save_memory w = inr (tt, w') /\ quiet w w'.
Proof.
  intros H. rewrite run_save_memory, run_save_json_healthy by assumption.
  eexists. split; [reflexivity |].
  split; [apply healthy_written; assumption |]. repeat split.
Qed.

(** Lines 228-229, 257-258, 288-289: the flow is counted and the metrics
    are saved. *)
Lemma count_flow_healthy k w :
  healthy w -> In k ["diet"; "shopping"; "travel"] ->
  exists w',
    run (metrics_incr2 "flows_completed" k ;; save_metrics) w = inr (tt, w')
    /\ healthy w'
    /\ sent w' = sent w /\ log_file w' = log_file w
    /\ completed w' = completed w + 1
    /\ (forall k', k' <> "flows_completed" ->
          counter (metrics w') k' = counter (metrics w) k')
    /\ metrics_file w' = Holds (metrics w').
Proof.
  intros H Hk. pose proof H as (Hm & _).
  destruct (incr2_flow _ _ Hm Hk) as (Hincr & Hok & Hcompleted & Hcount).
  set (m1 := bump2 (metrics w) "flows_completed" k) in *.
  assert (H1 : healthy (set_metrics w m1))
    by (apply healthy_set_metrics; assumption).
  exists (written (set_metrics w m1) METRICS_PATH m1).
  split.
  - mrun. rewrite run_metrics_incr2, Hincr. mrun.
    rewrite run_save_metrics, (run_save_json_healthy _ _ _ H1). reflexivity.
  - split; [apply healthy_written; exact H1 |].
    repeat split; assumption.
Qed.

Lemma agent_of_flow fl :
  (fl = "diet" /\ agent_of fl = DietAgent)
  \/ (fl = "shopping" /\ agent_of fl = ShoppingAgent)
  \/ (fl <> "diet" /\ fl <> "shopping" /\ agent_of fl = TravelAgent).
Proof.
  unfold agent_of.
  destruct (String.eqb_spec fl "diet") as [-> | H1]; [left; auto |].
  destruct (String.eqb_spec fl "shopping") as [-> | H2]; [right; left; auto |].
  right. right. auto.
Qed.

(** One quiet step of a finalizer: the world moves on, still healthy. *)
Ltac quiet_step H Q :=
  rewrite run_bind;
  let w2 := fresh "w" in
  let E := fresh "E" in
  let Q2 := fresh "Q" in
  match goal with
  | |- context [run (memory_set ?k ?v) ?w1] =>
      destruct (memory_set_quiet k v w1 H) as (w2 & E & Q2)
  | |- context [run save_memory ?w1] =>
      destruct (save_memory_quiet w1 H) as (w2 & E & Q2)
  end;
  rewrite E; cbv iota beta;
  let Q3 := fresh "Q" in
  let H3 := fresh "H" in
  pose proof (quiet_trans _ _ _ Q Q2) as Q3;
  pose proof (proj1 Q2) as H3;
  clear H Q E Q2; rename Q3 into Q; rename H3 into H.

(** A finalizer in a healthy world: it returns the text of [gemini] and
    leaves the world dispatched. *)
Lemma finalize_healthy o fl ans l w :
  healthy w ->
  exists w',
    run (finalize o fl ans l) w = inr (reply_text o, w')
    /\ dispatched o fl l ans w w'.
Proof.
  intros H.
  assert (Hend : forall p t mx k w1 w2,
            In k ["diet"; "shopping"; "travel"] ->
            request_of (agent_of fl) l ans = mkRequest p t mx ->
            run (gemini o p t mx) w = inr (reply_text o, w1) ->
            healthy w1 ->
            sent w1 = (sent w ++ [mkRequest p t mx])%list ->
            counter (metrics w1) "gemini_calls"
            = counter (metrics w) "gemini_calls" + 1 ->
            counter (metrics w1) "errors"
            = counter (metrics w) "errors"
              + match reply o with Failure _ => 1 | _ => 0 end ->
            counter (metrics w1) "total_messages"
            = counter (metrics w) "total_messages" ->
            completed w1 = completed w ->
            log_file w1 = log_file w ->
            quiet w1 w2 ->
            exists w',
              run (metrics_incr2 "flows_completed" k ;; save_metrics ;;
                   ret (reply_text o)) w2 = inr (reply_text o, w')
              /\ dispatched o fl l ans w w').
  { intros p t mx k w1 w2 Hk Hreq _ _ Hsent Hcalls Herr Hmsg Hcomp Hlog
           (H2 & Hmet & _ & Hsent2 & Hlog2).
    destruct (count_flow_healthy k w2 H2 Hk)
      as (w3 & Hrun3 & H3 & Hsent3 & Hlog3 & Hcomp3 & Hcount3 & Hsaved3).
    exists w3. split.
    - rewrite <- run_bind_assoc, run_bind, Hrun3. reflexivity.
    - split; try assumption; unfold completed in *.
      + rewrite Hsent3, Hsent2, Hsent, Hreq. reflexivity.
      + rewrite Hcount3, Hmet by discriminate. exact Hcalls.
      + rewrite Hcomp3, Hmet. rewrite Hcomp. reflexivity.
      + rewrite Hcount3, Hmet by discriminate. exact Herr.
      + rewrite Hcount3, Hmet by discriminate. exact Hmsg.
      + rewrite Hlog3, Hlog2, Hlog. reflexivity. }
  unfold finalize.
  destruct (agent_of_flow fl) as [(-> & Ha) | [(-> & Ha) | (N1 & N2 & Ha)]].
  - unfold finalize_diet. cbn [String.eqb Ascii.eqb Bool.eqb].
    match goal with |- context [gemini o ?p ?t ?mx] =>
      destruct (gemini_healthy o p t mx w H)
        as (w1 & Hrun1 & H1 & Hsent & Hcalls & Herr & Hmsg & Hcomp & _ & _ & Hlog)
    end.
    rewrite run_bind, Hrun1. cbv iota beta.
    pose proof (quiet_refl w1 H1) as Q. pose proof H1 as Hc.
    do 4 quiet_step Hc Q.
    eapply (Hend _ _ _ "diet" w1); try eassumption;
      [cbn; tauto | rewrite Ha; reflexivity].
  - unfold finalize_shopping. cbn [String.eqb Ascii.eqb Bool.eqb].
    match goal with |- context [gemini o ?p ?t ?mx] =>
      destruct (gemini_healthy o p t mx w H)
        as (w1 & Hrun1 & H1 & Hsent & Hcalls & Herr & Hmsg & Hcomp & _ & _ & Hlog)
    end.
    rewrite run_bind, Hrun1. cbv iota beta.
    pose proof (quiet_refl w1 H1) as Q. pose proof H1 as Hc.
    do 3 quiet_step Hc Q.
    eapply (Hend _ _ _ "shopping" w1); try eassumption;
      [cbn; tauto | rewrite Ha; reflexivity].
  - apply String.eqb_neq in N1, N2. rewrite N1, N2.
    unfold finalize_travel.
    match goal with |- context [gemini o ?p ?t ?mx] =>
      destruct (gemini_healthy o p t mx w H)
        as (w1 & Hrun1 & H1 & Hsent & Hcalls & Herr & Hmsg & Hcomp & _ & _ & Hlog)
    end.
    rewrite run_bind, Hrun1. cbv iota beta.
    pose proof (quiet_refl w1 H1) as Q. pose proof H1 as Hc.
    do 3 quiet_step Hc Q.
    eapply (Hend _ _ _ "travel" w1); try eassumption;
      [cbn; tauto | rewrite Ha; reflexivity].
Qed.

(** ** A collecting turn *)

Lemma collect_answer_run message h ol fl qs ans idx slot w :
  PyList.index qs idx = inr slot ->
  run (collect_answer message h (collecting ol fl qs ans idx)) w =
  inr (let ans' := PyDict.set ans (fst slot) (PyStr.strip message) in
       if allergy_rule fl (fst slot) message then
         inl (append h (assistant_msg
                "Please specify your allergies (e.g., dairy, peanuts, gluten, soy, egg)."),
              collecting ol fl (PyList.insert qs (idx + 1) allergy_slot)
                         ans' (idx + 1))
       else
         inr (collecting ol fl (shopping_rules fl (fst slot) message idx qs)
                         ans' (idx + 1)),
       w).
Proof.
  intros Hslot. unfold collect_answer, collecting, allergy_rule, shopping_rules.
  mrun. rewrite Hslot. mrun.
  destruct (String.eqb fl "diet" && String.eqb (fst slot) "diet_pref"
            && PyStr.mem _ allergy_phrases); mrun; [reflexivity |].
  destruct (String.eqb fl "shopping" && String.eqb (fst slot) "category");
    mrun; reflexivity.
Qed.

Lemma collect_answer_out_of_range message h ol fl qs ans idx w :
  PyList.index qs idx = inl IndexError ->
  run (collect_answer message h (collecting ol fl qs ans idx)) w =
  inl IndexError.
Proof.
  intros Hslot. unfold collect_answer, collecting. mrun.
  rewrite Hslot. mrun. reflexivity.
Qed.

Lemma next_or_finalize_ask o h ol fl qs ans i slot w :
  0 <= i -> nth_error qs (Z.to_nat i) = Some slot ->
  run (next_or_finalize o h (collecting ol fl qs ans i)) w =
  inr (append h (assistant_msg (snd slot)), collecting ol fl qs ans i, w).
Proof.
  intros Hi Hslot. unfold next_or_finalize, collecting. mrun.
  assert (Hlt : (Z.to_nat i < length qs)%nat)
    by (apply nth_error_Some; congruence).
  destruct (Z.ltb_spec i (PyList.len qs)); [| unfold PyList.len in *; lia].
  mrun. rewrite (index_nth qs i slot Hi Hslot). mrun. reflexivity.
Qed.

(** The completing branch, in every world: the finalizer runs, then the
    state is reset. *)
Lemma next_or_finalize_done o h l fl qs ans i w :
  PyList.len qs <= i ->
  run (next_or_finalize o h (collecting (Some l) fl qs ans i)) w =
  run (res <- finalize o fl ans l ;;
       ret (append
              (append
                 (append h (assistant_msg "Preparing your results… please wait."))
                 (assistant_msg res))
              (assistant_msg
                 ("What else can I help with in " ++ l ++
                  "? (diet / shopping / travel)")),
            reset_state l)) w.
Proof.
  intros Hi. unfold next_or_finalize, collecting. mrun.
  destruct (Z.ltb_spec i (PyList.len qs)); [lia |]. mrun.
  fold (finalize o fl ans l). reflexivity.
Qed.

Lemma next_or_finalize_no_lang o h fl qs ans i w :
  PyList.len qs <= i ->
  run (next_or_finalize o h (collecting None fl qs ans i)) w =
  inl (KeyError "lang").
Proof.
  intros Hi. unfold next_or_finalize, collecting. mrun.
  destruct (Z.ltb_spec i (PyList.len qs)); [lia |]. mrun. reflexivity.
Qed.

(** The turn that inserts the allergy question (lines 374-387). *)
Lemma allergy_turn o message h w ol fl qs ans idx slot :
  PyList.index qs idx = inr slot ->
  allergy_rule fl (fst slot) message = true ->
  run (chat_handler o message h (Some (collecting ol fl qs ans idx))) w =
  run (count_message ;;
       ret (append (heard h message)
              (assistant_msg
                 "Please specify your allergies (e.g., dairy, peanuts, gluten, soy, egg)."),
            collecting ol fl (PyList.insert qs (idx + 1) allergy_slot)
                       (answered ans slot message) (idx + 1))) w.
Proof.
  intros Hslot Hrule.
  rewrite chat_handler_collecting by reflexivity.
  apply run_bind_ext. intros [] w1. cbv zeta. rewrite run_bind.
  rewrite (collect_answer_run _ _ _ _ _ _ _ slot) by assumption.
  cbv zeta. rewrite Hrule. reflexivity.
Qed.

(** The turn that asks the next question (lines 410-413). *)
Lemma asking_turn o message h w ol fl qs ans idx slot next :
  PyList.index qs idx = inr slot ->
  allergy_rule fl (fst slot) message = false ->
  0 <= idx + 1 ->
  nth_error (shopping_rules fl (fst slot) message idx qs)
            (Z.to_nat (idx + 1)) = Some next ->
  run (chat_handler o message h (Some (collecting ol fl qs ans idx))) w =
  run (count_message ;;
       ret (append (heard h message) (assistant_msg (snd next)),
            collecting ol fl (shopping_rules fl (fst slot) message idx qs)
                       (answered ans slot message) (idx + 1))) w.
Proof.
  intros Hslot Hrule Hi Hnext.
  rewrite chat_handler_collecting by reflexivity.
  apply run_bind_ext. intros [] w1. cbv zeta. rewrite run_bind.
  rewrite (collect_answer_run _ _ _ _ _ _ _ slot) by assumption.
  cbv zeta. rewrite Hrule.
  apply next_or_finalize_ask; assumption.
Qed.

(** The turn that completes the flow (lines 415-439), in every world. *)
Lemma completing_turn o message h w l fl qs ans idx slot :
  PyList.index qs idx = inr slot ->
  allergy_rule fl (fst slot) message = false ->
  PyList.len (shopping_rules fl (fst slot) message idx qs) <= idx + 1 ->
  run (chat_handler o message h (Some (collecting (Some l) fl qs ans idx))) w =
  run (count_message ;;
       res <- finalize o fl (answered ans slot message) l ;;
       ret (completed_history h message l res, reset_state l)) w.
Proof.
  intros Hslot Hrule Hlen.
  rewrite chat_handler_collecting by reflexivity.
  apply run_bind_ext. intros [] w1. cbv zeta. rewrite run_bind.
  rewrite (collect_answer_run _ _ _ _ _ _ _ slot) by assumption.
  cbv zeta. rewrite Hrule.
  apply next_or_finalize_done. assumption.
Qed.

(** The completing turn in a healthy world. *)
Lemma completing_turn_healthy o message h w l fl qs ans idx slot :
  PyList.index qs idx = inr slot ->
  allergy_rule fl (fst slot) message = false ->
  PyList.len (shopping_rules fl (fst slot) message idx qs) <= idx + 1 ->
  healthy w ->
  exists w',
    run (chat_handler o message h (Some (collecting (Some l) fl qs ans idx))) w =
    inr (completed_history h message l (reply_text o), reset_state l, w')
    /\ dispatched o fl l (answered ans slot message) (after_message w) w'.
Proof.
  intros Hslot Hrule Hlen H.
  rewrite (completing_turn _ _ _ _ _ _ _ _ _ slot) by assumption.
  rewrite run_counted by assumption.
  destruct (count_message_healthy w H) as (_ & H1).
  destruct (finalize_healthy o fl (answered ans slot message) l _ H1)
    as (w' & Hrun & Hd).
  exists w'. split; [| exact Hd].
  rewrite run_bind, Hrun. reflexivity.
Qed.

(** A turn that returns from a completing branch returns the reset
    state. *)
Lemma completing_turn_state o message h w l fl qs ans idx slot h' s' w' :
  PyList.index qs idx = inr slot ->
  allergy_rule fl (fst slot) message = false ->
  PyList.len (shopping_rules fl (fst slot) message idx qs) <= idx + 1 ->
  run (chat_handler o message h (Some (collecting (Some l) fl qs ans idx))) w
  = inr (h', s', w') ->
  s' = reset_state l.
Proof.
  intros Hslot Hrule Hlen Hrun.
  rewrite (completing_turn _ _ _ _ _ _ _ _ _ slot) in Hrun by assumption.
  apply run_counted_inv in Hrun. destruct Hrun as (w1 & Hrun).
  rewrite run_bind in Hrun.
  destruct (run (finalize _ _ _ _) w1) as [e | [res w2]]; [discriminate |].
  rewrite run_ret in Hrun. injection Hrun as _ <- _. reflexivity.
Qed.

(** A turn that counts and returns, returns what it returns. *)
Lemma counted_ret_inv {A} (a b : A) w w' :
  run (count_message ;; ret a) w = inr (b, w') -> b = a.
Proof.
  intros H. apply run_counted_inv in H. destruct H as (w1 & H).
  rewrite run_ret in H. injection H as <- _. reflexivity.
Qed.

Lemma shopping_rules_len fl key message idx qs :
  PyList.len qs <= PyList.len (shopping_rules fl key message idx qs).
Proof.
  unfold shopping_rules.
  destruct (_ && _); [| lia].
  destruct (PyStr.contains "cloth" _), (PyStr.contains "grocery" _);
    rewrite ?splice_len; unfold PyList.len; cbn; lia.
Qed.

Lemma shopping_rules_other fl key message idx qs :
  fl <> "shopping" -> shopping_rules fl key message idx qs = qs.
Proof.
  intros H. unfold shopping_rules.
  apply String.eqb_neq in H. rewrite H. reflexivity.
Qed.

Lemma diet_pref_position n slot :
  nth_error (base_questions_for_flow "diet") n = Some slot ->
  fst slot = "diet_pref" -> n = 7%nat.
Proof.
  intros Hn Hk.
  do 8 (destruct n as [| n];
        [injection Hn as <-; first [reflexivity | discriminate Hk] |]).
  destruct n; discriminate Hn.
Qed.

Lemma allergy_rule_true fl key message :
  allergy_rule fl key message = true <->
  fl = "diet" /\ key = "diet_pref"
  /\ In (PyStr.strip (PyStr.lower message)) allergy_phrases.
Proof.
  unfold allergy_rule.
  rewrite !andb_true_iff, !String.eqb_eq, mem_In. tauto.
Qed.

(** ** Conversations *)

Lemma shopping_rules_other_key fl key message idx qs :
  key <> "category" -> shopping_rules fl key message idx qs = qs.
Proof.
  intros H. unfold shopping_rules.
  apply String.eqb_neq in H. rewrite H, andb_false_r. reflexivity.
Qed.

Lemma category_position cloth grocery n slot :
  nth_error (shopping_questions cloth grocery) n = Some slot ->
  fst slot = "category" -> n = 2%nat.
Proof.
  intros Hn Hk.
  destruct cloth, grocery; cbn in Hn;
    do 12 (try (destruct n as [| n];
                [cbn in Hn;
                 first [discriminate Hn
                       | injection Hn as <-;
                         first [reflexivity | discriminate Hk]]
                | cbn in Hn; try discriminate Hn])).
Qed.

(** The queue of a shopping conversation after [category] is answered. *)
Lemma shopping_rules_at_category message :
  shopping_rules "shopping" "category" message 2
                 (base_questions_for_flow "shopping")
  = shopping_questions (PyStr.contains "cloth" (PyStr.lower message))
                       (PyStr.contains "grocery" (PyStr.lower message)).
Proof.
  unfold shopping_rules.
  destruct (PyStr.contains "cloth" _), (PyStr.contains "grocery" _);
    reflexivity.
Qed.

(** Every question of a conversation has a text. *)
Lemma queue_ok_prompts fl qs idx n slot :
  queue_ok fl qs idx -> nth_error qs n = Some slot -> snd slot <> "".
Proof.
  intros Hq Hn.
  assert (Hall : Forall (fun s : Slot => snd s <> "") qs).
  { destruct Hq as [(_ & [-> | [-> _]])
                   | [(_ & cloth & grocery & -> & _) | (_ & ->)]];
      [| | destruct cloth, grocery |];
      repeat (constructor; [discriminate |]); constructor. }
  rewrite Forall_forall in Hall. apply Hall. eapply nth_error_In. exact Hn.
Qed.

Lemma base_queue_ok fl :
  In fl ["diet"; "shopping"; "travel"] ->
  queue_ok fl (base_questions_for_flow fl) 0.
Proof.
  intros [<- | [<- | [<- | []]]].
  - left. split; [reflexivity | now left].
  - right. left. split; [reflexivity |].
    exists false, false. split; [reflexivity | auto].
  - right. right. split; reflexivity.
Qed.

(** The queue after a turn that inserts the allergy slot. *)
Lemma queue_ok_allergy fl (qs : list Slot) idx slot message :
  queue_ok fl qs idx ->
  nth_error qs (Z.to_nat idx) = Some slot -> 0 <= idx ->
  allergy_rule fl (fst slot) message = true ->
  queue_ok fl (PyList.insert qs (idx + 1) allergy_slot) (idx + 1)
  /\ idx = 7 /\ qs = base_questions_for_flow "diet".
Proof.
  intros Hq Hnth Hi Hrule.
  apply allergy_rule_true in Hrule. destruct Hrule as (-> & Hkey & _).
  destruct Hq as [(_ & [-> | [-> ->]])
                 | [(Hfl & _) | (Hfl & _)]]; try discriminate Hfl.
  - pose proof (diet_pref_position _ _ Hnth Hkey) as H7.
    assert (idx = 7) by lia. subst idx.
    split; [| split; reflexivity].
    left. split; [reflexivity |]. right. split; reflexivity.
  - vm_compute in Hnth. injection Hnth as <-. discriminate Hkey.
Qed.

(** The queue after a turn that asks the next question. *)
Lemma queue_ok_asked fl (qs : list Slot) idx slot message :
  queue_ok fl qs idx ->
  nth_error qs (Z.to_nat idx) = Some slot -> 0 <= idx ->
  idx + 1 < PyList.len (shopping_rules fl (fst slot) message idx qs) ->
  queue_ok fl (shopping_rules fl (fst slot) message idx qs) (idx + 1).
Proof.
  intros Hq Hnth Hi Hlt.
  destruct Hq as [(-> & Hd)
                 | [(-> & cloth & grocery & -> & Hidx) | (-> & ->)]].
  - rewrite shopping_rules_other in * by discriminate.
    left. split; [reflexivity |].
    destruct Hd as [-> | [-> ->]]; [now left |].
    vm_compute in Hlt. discriminate Hlt.
  - right. left. split; [reflexivity |].
    destruct (String.eqb_spec (fst slot) "category") as [Hk | Hk].
    + pose proof (category_position _ _ _ _ Hnth Hk) as H2.
      assert (idx = 2) by lia. subst idx.
      destruct Hidx as [-> ->]; [lia |].
      rewrite Hk.
      change (shopping_questions false false)
        with (base_questions_for_flow "shopping").
      rewrite shopping_rules_at_category.
      eexists. eexists. split; [reflexivity | lia].
    + rewrite shopping_rules_other_key by assumption.
      exists cloth, grocery. split; [reflexivity |].
      intros H. apply Hidx. lia.
  - rewrite shopping_rules_other by discriminate.
    right. right. split; reflexivity.
Qed.

(** One turn from a well-formed state [s]: there is one state [s'] of
    the turn, well formed, which every return of the turn returns; in a
    healthy world the turn returns, with the user's message and one or
    more messages of the assistant added to the history, the first of
    them not empty, and the world stays healthy. *)
Lemma turn_wf o message h s :
  wf_state s ->
  exists s' txt more,
    wf_state s' /\ cursor_step s message s' /\ txt <> ""
    /\ (forall w, healthy w ->
          exists w',
            run (chat_handler o message h (Some s)) w =
            inr ((heard h message
                  ++ assistant_msg txt :: map assistant_msg more)%list,
                 s', w')
            /\ healthy w')
    /\ (forall w h1 s1 w1,
          run (chat_handler o message h (Some s)) w = inr (h1, s1, w1) ->
          s1 = s').
Proof.
  assert (Hret : forall (hist : History) (s0 s' : State) txt,
            (forall w, run (chat_handler o message h (Some s0)) w
                       = run (count_message ;;
                              ret (append (heard h message)
                                          (assistant_msg txt), s')) w) ->
            (forall w, healthy w ->
               exists w',
                 run (chat_handler o message h (Some s0)) w =
                 inr ((heard h message
                       ++ assistant_msg txt :: map assistant_msg [])%list,
                      s', w')
                 /\ healthy w')
            /\ (forall w h1 s1 w1,
                  run (chat_handler o message h (Some s0)) w
                  = inr (h1, s1, w1) -> s1 = s')).
  { intros _ s0 s' txt E. split.
    - intros w H. rewrite E, run_counted by assumption.
      exists (after_message w).
      split; [reflexivity | apply count_message_healthy; assumption].
    - intros w h1 s1 w1 Hrun. rewrite E in Hrun.
      apply counted_ret_inv in Hrun. congruence. }
  intros [| l | l fl qs ans idx Hidx Hq].
  - destruct (PyDict.get LANG_CHOICES (PyStr.strip (PyStr.lower message)))
      as [l |] eqn:El.
    + exists (reset_state l). eexists. exists [].
      split; [constructor |]. split; [split; intros; discriminate |].
      split; [| apply (Hret []); intros w;
                rewrite chat_handler_choose_language by reflexivity;
                cbv zeta; rewrite El; reflexivity].
      discriminate.
    + exists initial_state. eexists. exists [].
      split; [constructor |]. split; [split; intros; discriminate |].
      split; [| apply (Hret []); intros w;
                rewrite chat_handler_choose_language by reflexivity;
                cbv zeta; rewrite El; reflexivity].
      discriminate.
  - destruct (PyStr.mem (PyStr.strip (PyStr.lower message))
                        ["diet"; "shopping"; "travel"]) eqn:Hm.
    + destruct (base_questions_first _ Hm) as (slot & rest & E).
      pose proof (base_queue_ok _ (proj1 (mem_In _ _) Hm)) as Hq.
      exists (collecting (Some l) (PyStr.strip (PyStr.lower message))
                         (base_questions_for_flow
                            (PyStr.strip (PyStr.lower message))) [] 0).
      exists (snd slot), [].
      split; [apply wf_collecting;
              [rewrite E; unfold PyList.len; cbn; lia | exact Hq] |].
      split; [split; [intros; discriminate |];
              intros _; split; [reflexivity | now apply mem_In] |].
      split; [apply (queue_ok_prompts _ _ _ 0%nat _ Hq); rewrite E;
              reflexivity |].
      split.
      * intros w H.
        rewrite chat_handler_choose_flow by reflexivity. cbv zeta.
        rewrite Hm, E, run_counted by assumption.
        destruct (count_message_healthy w H) as (_ & H1).
        destruct (count_session_healthy _ H1) as (Hrun2 & H2).
        rewrite run_bind, Hrun2. eexists. split; [reflexivity | exact H2].
      * intros w h1 s1 w1 Hrun.
        rewrite chat_handler_choose_flow in Hrun by reflexivity.
        cbv zeta in Hrun. rewrite Hm, E in Hrun.
        apply run_counted_inv in Hrun. destruct Hrun as (w2 & Hrun).
        rewrite run_bind in Hrun.
        destruct (run count_session w2) as [e | [[] w3]]; [discriminate |].
        rewrite run_ret in Hrun. injection Hrun as _ <- _.
        rewrite E. reflexivity.
    + exists (reset_state l). eexists. exists [].
      split; [constructor |]. split; [split; intros; discriminate |].
      split; [| apply (Hret []); intros w;
                rewrite chat_handler_choose_flow by reflexivity;
                cbv zeta; rewrite Hm; reflexivity].
      discriminate.
  - destruct (index_in_range qs idx Hidx) as (slot & Hnth & Hslot).
    destruct (allergy_rule fl (fst slot) message) eqn:Hrule.
    + destruct (queue_ok_allergy _ _ _ _ _ Hq Hnth (proj1 Hidx) Hrule)
        as (Hq' & -> & ->).
      exists (collecting (Some l) fl
                (PyList.insert (base_questions_for_flow "diet") (7 + 1)
                               allergy_slot)
                (answered ans slot message) (7 + 1)).
      eexists. exists [].
      split; [apply wf_collecting; [vm_compute; split; congruence | exact Hq'] |].
      split; [split; [intros c _ _ H; injection H as <-; reflexivity
                     | intros H; injection H; lia] |].
      split; [| apply (Hret []); intros w;
                apply (allergy_turn _ _ _ _ _ _ _ _ _ slot); assumption].
      discriminate.
    + pose proof (shopping_rules_len fl (fst slot) message idx qs) as Hlen.
      destruct (nth_error (shopping_rules fl (fst slot) message idx qs)
                          (Z.to_nat (idx + 1))) as [next |] eqn:Hnext.
      * assert (Hlt : (Z.to_nat (idx + 1) <
                       length (shopping_rules fl (fst slot) message idx qs))%nat)
          by (apply nth_error_Some; congruence).
        assert (Hq' : queue_ok fl (shopping_rules fl (fst slot) message idx qs)
                               (idx + 1)).
        { apply queue_ok_asked; try assumption; unfold PyList.len; lia. }
        exists (collecting (Some l) fl
                  (shopping_rules fl (fst slot) message idx qs)
                  (answered ans slot message) (idx + 1)).
        exists (snd next), [].
        split; [apply wf_collecting;
                [unfold PyList.len in *; lia | exact Hq'] |].
        split; [split; [intros c _ _ H; injection H as <-; reflexivity
                       | intros H; injection H; lia] |].
        split; [exact (queue_ok_prompts _ _ _ _ _ Hq' Hnext) |].
        apply (Hret []). intros w.
        apply (asking_turn _ _ _ _ _ _ _ _ _ slot next);
          assumption || lia.
      * apply nth_error_None in Hnext.
        assert (Hdone : PyList.len (shopping_rules fl (fst slot) message idx qs)
                        <= idx + 1) by (unfold PyList.len in *; lia).
        exists (reset_state l).
        exists "Preparing your results… please wait.".
        exists [reply_text o;
                "What else can I help with in " ++ l ++
                "? (diet / shopping / travel)"].
        split; [constructor |]. split; [split; intros; discriminate |].
        split; [discriminate |]. split.
        -- intros w H.
           destruct (completing_turn_healthy o message h w l fl qs ans idx slot
                       Hslot Hrule Hdone H) as (w' & Hrun & Hd).
           exists w'. split; [| exact (dispatched_healthy _ _ _ _ _ _ Hd)].
           rewrite Hrun. unfold completed_history, append.
           rewrite <- !app_assoc. reflexivity.
        -- intros w h1 s1 w1 Hrun.
           exact (completing_turn_state _ _ _ _ _ _ _ _ _ _ _ _ _
                    Hslot Hrule Hdone Hrun).
Qed.

Lemma reachable_wf s : reachable s -> wf_state s.
Proof.
  induction 1 as [| s o message h w h' s' w' _ IH Hrun]; [constructor |].
  destruct (turn_wf o message h s IH) as (s1 & txt & more & Hwf & _ & _ & _ & Hdet).
  rewrite (Hdet _ _ _ _ Hrun). exact Hwf.
Qed.

Lemma session_reachable turns : forall h s w h' s' w',
  reachable s ->
  run (session turns h s) w = inr (h', s', w') ->
  reachable s'.
Proof.
  induction turns as [| [o message] rest IH]; intros h s w h' s' w' Hs Hrun.
  - cbn in Hrun. injection Hrun as _ <- _. exact Hs.
  - cbn [session] in Hrun. rewrite run_bind in Hrun.
    destruct (run (chat_handler o message (Some h) (Some s)) w)
      as [e | [[h1 s1] w1]] eqn:E; [discriminate |].
    apply (IH _ _ _ _ _ _ (reachable_turn _ _ _ _ _ _ _ _ Hs E) Hrun).
Qed.

Lemma healthy_fresh_world : healthy fresh_world.
Proof. repeat split. Qed.
Lemma allergy_rule_false fl key message :
  ~ allergy_follow_up fl key message -> allergy_rule fl key message = false.
Proof.
  intros H. destruct (allergy_rule fl key message) eqn:E; [| reflexivity].
  apply allergy_rule_true in E. contradiction.
Qed.

Lemma shopping_rules_idle fl key message idx qs :
  ~ shopping_follow_up fl key message ->
  shopping_rules fl key message idx qs = qs.
Proof.
  intros H. unfold shopping_rules, shopping_follow_up in *.
  destruct (String.eqb_spec fl "shopping") as [-> | _]; [| reflexivity].
  destruct (String.eqb_spec key "category") as [-> | _]; [| reflexivity].
  cbn. destruct (PyStr.contains "cloth" _); [exfalso; auto |].
  destruct (PyStr.contains "grocery" _); [exfalso; auto | reflexivity].
Qed.

Lemma last_slot_completes fl (qs : list Slot) idx slot message :
  0 <= idx -> idx + 1 = PyList.len qs ->
  nth_error qs (Z.to_nat idx) = Some slot ->
  ~ allergy_follow_up fl (fst slot) message ->
  ~ shopping_follow_up fl (fst slot) message ->
  completes_flow fl qs idx slot message.
Proof.
  intros Hi Hlast Hnth Ha Hs. split; [| split].
  - apply index_nth; assumption.
  - apply allergy_rule_false; assumption.
  - rewrite shopping_rules_idle by assumption. unfold PyList.len in *. lia.
Qed.

Lemma diet_at_diet_pref_reachable : reachable diet_at_diet_pref.
Proof.
  eapply (session_reachable diet_turns [] initial_state fresh_world);
    [constructor | vm_compute; reflexivity].
Qed.

Lemma shopping_at_category_reachable : reachable shopping_at_category.
Proof.
  eapply (session_reachable shopping_turns [] initial_state fresh_world);
    [constructor | vm_compute; reflexivity].
Qed.


(** * The claims *)

(** C4.  In stage [choose_language] an input whose lowercased, trimmed
    text is no key of [LANG_CHOICES], and in stage [choose_flow] an input
    whose lowercased, trimmed text is none of diet, shopping, travel,
    leaves the whole state as it was and adds exactly one message of the
    assistant, the re-prompt: the turn is the count of the message
    followed by the return of that history and of the state passed in,
    and in a healthy world it returns them. *)
Theorem unrecognized_input_reprompts o message h s w :
  (stage s = Some "choose_language" ->
   ~ In (PyStr.strip (PyStr.lower message)) (PyDict.keys LANG_CHOICES) ->
   let reply :=
     ((or_empty h ++
       [user_msg message;
        assistant_msg
          "Please select a language: English / Hindi / Marathi / Telugu"])%list,
      s) in
   run (chat_handler o message h (Some s)) w
   = run (count_message ;; ret reply) w
   /\ (healthy w ->
       run (chat_handler o message h (Some s)) w
       = inr (reply, after_message w)))
  /\ (stage s = Some "choose_flow" ->
      ~ In (PyStr.strip (PyStr.lower message)) ["diet"; "shopping"; "travel"] ->
      let reply :=
        ((or_empty h ++
          [user_msg message;
           assistant_msg "Please type: diet / shopping / travel"])%list,
         s) in
      run (chat_handler o message h (Some s)) w
      = run (count_message ;; ret reply) w
      /\ (healthy w ->
          run (chat_handler o message h (Some s)) w
          = inr (reply, after_message w))).
Proof.
  split; intros Hs Hm reply.
  - assert (E : run (chat_handler o message h (Some s)) w
                = run (count_message ;; ret reply) w).
    { rewrite chat_handler_choose_language by assumption. cbv zeta.
      apply get_None in Hm. rewrite Hm.
      unfold reply, append. rewrite <- app_assoc. reflexivity. }
    split; [exact E |]. intros H. rewrite E, run_counted by assumption.
    reflexivity.
  - assert (E : run (chat_handler o message h (Some s)) w
                = run (count_message ;; ret reply) w).
    { rewrite chat_handler_choose_flow by assumption. cbv zeta.
      apply mem_not_In in Hm. rewrite Hm.
      unfold reply, append. rewrite <- app_assoc. reflexivity. }
    split; [exact E |]. intros H. rewrite E, run_counted by assumption.
    reflexivity.
Qed.

Lemma unrecognized_input_reprompts_witness :
  run (chat_handler oracle_up " Deutsch " (Some []) (Some initial_state))
      fresh_world =
  inr ([user_msg " Deutsch ";
        assistant_msg
          "Please select a language: English / Hindi / Marathi / Telugu"],
       initial_state, after_message fresh_world)
  /\ run (chat_handler oracle_up "diet plan" (Some [])
            (Some (reset_state "Hindi"))) fresh_world =
     inr ([user_msg "diet plan";
           assistant_msg "Please type: diet / shopping / travel"],
          reset_state "Hindi", after_message fresh_world).
Proof.
  split.
  - apply (proj1 (unrecognized_input_reprompts oracle_up " Deutsch "
                    (Some []) initial_state fresh_world)).
    + reflexivity.
    + vm_compute. intuition discriminate.
    + exact healthy_fresh_world.
  - apply (proj2 (unrecognized_input_reprompts oracle_up "diet plan"
                    (Some []) (reset_state "Hindi") fresh_world)).
    + reflexivity.
    + vm_compute. intuition discriminate.
    + exact healthy_fresh_world.
Defined.



(** C9.  From every state of a conversation a turn in a healthy world
    returns; and whenever a turn returns, the cursor of the state it
    returns lies between 0 and the length of the queue; from one
    collecting state to the next, that is within one flow instance, it
    does not decrease (it grows by one); and it is at 0 only after a flow
    selection made in stage [choose_flow]. *)
Theorem cursor_invariant o message h s w :
  reachable s ->
  (healthy w ->
   exists h' s' w',
     run (chat_handler o message h (Some s)) w = inr (h', s', w'))
  /\ forall h' s' w',
       run (chat_handler o message h (Some s)) w = inr (h', s', w') ->
       (stage s' = Some "collecting" ->
        exists c qs, q_index s' = Some c /\ questions s' = Some qs)
       /\ (forall c qs, q_index s' = Some c -> questions s' = Some qs ->
                        0 <= c <= PyList.len qs)
       /\ (forall c c', stage s = Some "collecting" ->
                        stage s' = Some "collecting" ->
                        q_index s = Some c -> q_index s' = Some c' -> c <= c')
       /\ (q_index s' = Some 0 ->
           stage s = Some "choose_flow"
           /\ In (PyStr.strip (PyStr.lower message))
                 ["diet"; "shopping"; "travel"]).
Proof.
  intros Hs. apply reachable_wf in Hs.
  destruct (turn_wf o message h s Hs)
    as (s1 & txt & more & Hwf & (Hstep & Hzero) & _ & Hrun & Hdet).
  split.
  - intros H. destruct (Hrun w H) as (w' & E & _). eauto.
  - intros h' s' w' E. rewrite (Hdet _ _ _ _ E).
    split; [| split; [| split]].
    + intros Hst. destruct Hwf; try discriminate Hst. cbn. eauto.
    + intros c qs Hc Hq. destruct Hwf; try discriminate Hc.
      cbn in Hc, Hq. injection Hc as <-. injection Hq as <-. lia.
    + intros c c' H1 H2 Hc Hc'.
      rewrite (Hstep c H1 H2 Hc) in Hc'. injection Hc' as <-. lia.
    + exact Hzero.
Qed.


Lemma cursor_invariant_witness :
  (healthy fresh_world ->
   exists h' s' w',
     run (chat_handler oracle_up "Clothes" (Some [])
            (Some shopping_at_category)) fresh_world = inr (h', s', w'))
  /\ forall h' s' w',
       run (chat_handler oracle_up "Clothes" (Some [])
              (Some shopping_at_category)) fresh_world = inr (h', s', w') ->
       (stage s' = Some "collecting" ->
        exists c qs, q_index s' = Some c /\ questions s' = Some qs)
       /\ (forall c qs, q_index s' = Some c -> questions s' = Some qs ->
                        0 <= c <= PyList.len qs)
       /\ (forall c c', stage shopping_at_category = Some "collecting" ->
                        stage s' = Some "collecting" ->
                        q_index shopping_at_category = Some c ->
                        q_index s' = Some c' -> c <= c')
       /\ (q_index s' = Some 0 ->
           stage shopping_at_category = Some "choose_flow"
           /\ In (PyStr.strip (PyStr.lower "Clothes"))
                 ["diet"; "shopping"; "travel"]).
Proof.
  apply (cursor_invariant oracle_up "Clothes" (Some []) shopping_at_category
           fresh_world).
  exact shopping_at_category_reachable.
Defined.

(** C1, as amended.  When the cursor is on the last slot of the queue and
    the answer triggers no follow-up insertion, the turn is the count of
    the message, one call of the finalizer of the flow and the return of
    the state [{"stage": "choose_flow", "lang": l}]; in a healthy world
    it dispatches exactly once (one request to the generator, one
    completed flow counted) and returns that state, with the language of
    before and no flow, answers, queue or cursor. *)
Theorem last_slot_dispatches o message h w l fl (qs : list Slot) ans idx slot :
  0 <= idx -> idx + 1 = PyList.len qs ->
  nth_error qs (Z.to_nat idx) = Some slot ->
  ~ allergy_follow_up fl (fst slot) message ->
  ~ shopping_follow_up fl (fst slot) message ->
  run (chat_handler o message h (Some (collecting (Some l) fl qs ans idx))) w
  = run (count_message ;;
         res <- finalize o fl (answered ans slot message) l ;;
         ret (completed_history h message l res, reset_state l)) w
  /\ (healthy w ->
      exists h' s' w',
        run (chat_handler o message h
               (Some (collecting (Some l) fl qs ans idx))) w
        = inr (h', s', w')
        /\ stage s' = Some "choose_flow" /\ lang s' = Some l
        /\ flow s' = None /\ answers s' = None /\ questions s' = None
        /\ q_index s' = None
        /\ sent w' =
           (sent w
            ++ [request_of (agent_of fl) l (answered ans slot message)])%list
        /\ completed w' = completed w + 1).
Proof.
  intros Hi Hlast Hnth Ha Hs.
  destruct (last_slot_completes fl qs idx slot message Hi Hlast Hnth Ha Hs)
    as (Hslot & Hrule & Hlen).
  split; [apply completing_turn; assumption |].
  intros H.
  destruct (completing_turn_healthy o message h w l fl qs ans idx slot
              Hslot Hrule Hlen H) as (w' & Hrun & Hd).
  eexists. exists (reset_state l), w'. split; [exact Hrun |].
  repeat (split; [reflexivity |]).
  destruct Hd as [Hsent _ Hcompleted _ _ _ _ _].
  destruct (after_message_facts w H) as (_ & _ & Hc & Hst & _).
  split; [rewrite Hsent, Hst; reflexivity | rewrite Hcompleted, Hc; reflexivity].
Qed.

(** C1 as stated fails: in the diet flow the cursor is on the last slot
    when [diet_pref] is asked, and the answer "yes" makes the turn insert
    the allergy question; the conversation stays in [collecting] and
    nothing is sent to the generator. *)
Lemma last_slot_yes_asks_more :
  reachable diet_at_diet_pref
  /\ 7 + 1 = PyList.len (base_questions_for_flow "diet")
  /\ exists h' s' w',
       run (chat_handler oracle_up "yes" (Some []) (Some diet_at_diet_pref))
           fresh_world = inr (h', s', w')
       /\ stage s' = Some "collecting"
       /\ sent w' = []
       /\ completed w' = completed fresh_world.
Proof.
  split; [exact diet_at_diet_pref_reachable |].
  split; [reflexivity |].
  eexists. eexists. eexists. split; [vm_compute; reflexivity |].
  repeat split.
Qed.

Lemma last_slot_dispatches_witness :
  run (chat_handler oracle_up "no" (Some []) (Some diet_at_diet_pref))
      fresh_world
  = run (count_message ;;
         res <- finalize oracle_up "diet"
                  (answered diet_answers
                     ("diet_pref",
                      "Any dietary preferences or allergies? (If none, type 'no')")
                     "no") "English" ;;
         ret (completed_history (Some []) "no" "English" res,
              reset_state "English")) fresh_world
  /\ (healthy fresh_world ->
      exists h' s' w',
        run (chat_handler oracle_up "no" (Some []) (Some diet_at_diet_pref))
            fresh_world = inr (h', s', w')
        /\ stage s' = Some "choose_flow" /\ lang s' = Some "English"
        /\ flow s' = None /\ answers s' = None /\ questions s' = None
        /\ q_index s' = None
        /\ sent w' =
           (sent fresh_world ++
            [request_of (agent_of "diet") "English"
               (answered diet_answers
                  ("diet_pref",
                   "Any dietary preferences or allergies? (If none, type 'no')")
                  "no")])%list
        /\ completed w' = completed fresh_world + 1).
Proof.
  apply (last_slot_dispatches oracle_up "no" (Some []) fresh_world "English"
           "diet" (base_questions_for_flow "diet") diet_answers 7
           ("diet_pref",
            "Any dietary preferences or allergies? (If none, type 'no')")).
  - lia.
  - reflexivity.
  - reflexivity.
  - intros (_ & _ & H). vm_compute in H. intuition discriminate.
  - intros (H & _). discriminate H.
Defined.

(** C2, as amended.  In the shopping flow, when the slot answered is
    [category] and the lowercased answer contains "cloth" and does not
    contain "grocery", exactly the three slots [for_whom], [occasion],
    [sizes] are inserted right after the category position, the slots
    before and after keeping their order; the cursor moves to [for_whom],
    which is asked next; the queue grows by three, the 7 base slots to
    10.  The turn is the count of the message followed by the return of
    that history and state, and in a healthy world it returns them. *)
Theorem clothing_answer_inserts_three_slots o message h w ol
  (qs : list Slot) ans idx prompt :
  0 <= idx ->
  nth_error qs (Z.to_nat idx) = Some ("category", prompt) ->
  PyStr.contains "cloth" (PyStr.lower message) = true ->
  PyStr.contains "grocery" (PyStr.lower message) = false ->
  let qs' := (firstn (S (Z.to_nat idx)) qs ++ extra_qs
              ++ skipn (S (Z.to_nat idx)) qs)%list in
  let reply :=
    ((or_empty h ++
      [user_msg message;
       assistant_msg
         "Who is this clothing for? (Men / Women / Kids / Baby)"])%list,
     collecting ol "shopping" qs'
                (PyDict.set ans "category" (PyStr.strip message))
                (idx + 1)) in
  run (chat_handler o message h (Some (collecting ol "shopping" qs ans idx))) w
  = run (count_message ;; ret reply) w
  /\ (healthy w ->
      run (chat_handler o message h
             (Some (collecting ol "shopping" qs ans idx))) w
      = inr (reply, after_message w))
  /\ map fst extra_qs = ["for_whom"; "occasion"; "sizes"]
  /\ length qs' = (length qs + 3)%nat
  /\ (qs = base_questions_for_flow "shopping" -> length qs' = 10%nat).
Proof.
  intros Hi Hnth Hcloth Hgrocery qs' reply.
  assert (Hlt : (Z.to_nat idx < length qs)%nat)
    by (apply nth_error_Some; congruence).
  assert (Hrange : 0 <= idx < PyList.len qs) by (unfold PyList.len; lia).
  assert (Hsplice : shopping_rules "shopping" "category" message idx qs
                    = PyList.splice qs (idx + 1) extra_qs).
  { unfold shopping_rules. rewrite Hcloth, Hgrocery. reflexivity. }
  assert (Hrules : shopping_rules "shopping" "category" message idx qs = qs').
  { rewrite Hsplice. apply splice_after. assumption. }
  assert (Hlen : length qs' = (length qs + 3)%nat).
  { rewrite <- Hrules, Hsplice, splice_length. reflexivity. }
  assert (E : run (chat_handler o message h
                     (Some (collecting ol "shopping" qs ans idx))) w
              = run (count_message ;; ret reply) w).
  { rewrite (asking_turn o message h w ol "shopping" qs ans idx
               ("category", prompt) (hd ("", "") extra_qs)).
    - cbn [fst]. rewrite Hrules. unfold reply, heard, answered, append.
      rewrite <- app_assoc. reflexivity.
    - apply index_nth; assumption.
    - reflexivity.
    - lia.
    - cbn [fst]. rewrite Hsplice.
      apply (splice_after_nth qs idx). assumption. }
  split; [exact E |].
  split; [intros H; rewrite E, run_counted by assumption; reflexivity |].
  split; [reflexivity | split; [exact Hlen |]].
  intros ->. rewrite Hlen. reflexivity.
Qed.

Lemma clothing_answer_inserts_three_slots_witness :
  let qs' := (firstn 3 (base_questions_for_flow "shopping") ++ extra_qs
              ++ skipn 3 (base_questions_for_flow "shopping"))%list in
  let reply :=
    ([user_msg "Clothes and shoes";
      assistant_msg
        "Who is this clothing for? (Men / Women / Kids / Baby)"],
     collecting (Some "English") "shopping" qs'
                [("currency", "INR"); ("budget", "5000");
                 ("category", "Clothes and shoes")] 3) in
  run (chat_handler oracle_up "Clothes and shoes" (Some [])
         (Some shopping_at_category)) fresh_world
  = run (count_message ;; ret reply) fresh_world
  /\ (healthy fresh_world ->
      run (chat_handler oracle_up "Clothes and shoes" (Some [])
             (Some shopping_at_category)) fresh_world
      = inr (reply, after_message fresh_world))
  /\ map fst extra_qs = ["for_whom"; "occasion"; "sizes"]
  /\ length qs' = 10%nat
  /\ (base_questions_for_flow "shopping" = base_questions_for_flow "shopping"
      -> length qs' = 10%nat).
Proof.
  apply (clothing_answer_inserts_three_slots oracle_up "Clothes and shoes"
           (Some []) fresh_world (Some "English")
           (base_questions_for_flow "shopping")
           [("currency", "INR"); ("budget", "5000")] 2
           "Type of shopping? (Clothes, Groceries, Electronics, Home, Kids, Gifts)").
  - lia.
  - reflexivity.
  - reflexivity.
  - reflexivity.
Defined.

(** C2 as stated fails: an answer that contains "cloth" and "grocery"
    gets four slots, and the slot right after [category] is
    [frequency]. *)
Lemma clothing_and_grocery_inserts_four :
  PyStr.contains "cloth" (PyStr.lower "Clothes and grocery") = true
  /\ exists h' s' w',
       run (chat_handler oracle_up "Clothes and grocery" (Some [])
              (Some shopping_at_category)) fresh_world = inr (h', s', w')
       /\ option_map (map fst) (questions s') =
          Some ["currency"; "budget"; "category"; "frequency"; "for_whom";
                "occasion"; "sizes"; "purpose"; "members"; "preferences";
                "have"]
       /\ questions s' <>
          Some (firstn 3 (base_questions_for_flow "shopping") ++ extra_qs
                ++ skipn 3 (base_questions_for_flow "shopping"))%list.
Proof.
  split; [reflexivity |].
  eexists. eexists. eexists. split; [vm_compute; reflexivity |].
  split; [reflexivity | discriminate].
Qed.

Lemma diet_pref_is_last ol (qs : list Slot) ans idx prompt :
  reachable (collecting ol "diet" qs ans idx) ->
  nth_error qs (Z.to_nat idx) = Some ("diet_pref", prompt) ->
  qs = base_questions_for_flow "diet" /\ idx = 7.
Proof.
  intros Hr Hnth. apply reachable_wf in Hr.
  inversion Hr as [| | l fl qs0 ans0 idx0 Hidx Hq]. subst.
  destruct Hq as [(_ & [-> | [-> ->]]) | [(Hfl & _) | (Hfl & _)]];
    try discriminate Hfl.
  - split; [reflexivity |].
    pose proof (diet_pref_position _ _ Hnth eq_refl). lia.
  - discriminate Hnth.
Qed.

(** C3.  In the diet flow, when the slot answered is [diet_pref] and the
    lowercased, trimmed answer is one of the affirmative phrases, the one
    slot [allergy_list] is inserted right after the cursor's position,
    the cursor after the turn is on that slot, and the queue is one slot
    longer; in a conversation the queue had its 8 base slots and has 9
    afterwards.  The turn is the count of the message followed by the
    return of that history and state, and in a healthy world it returns
    them. *)
Theorem allergy_answer_inserts_slot o message h w ol
  (qs : list Slot) ans idx prompt :
  0 <= idx ->
  nth_error qs (Z.to_nat idx) = Some ("diet_pref", prompt) ->
  In (PyStr.strip (PyStr.lower message)) allergy_phrases ->
  let qs' := (firstn (S (Z.to_nat idx)) qs ++ [allergy_slot]
              ++ skipn (S (Z.to_nat idx)) qs)%list in
  let reply :=
    ((or_empty h ++
      [user_msg message;
       assistant_msg
         "Please specify your allergies (e.g., dairy, peanuts, gluten, soy, egg)."])%list,
     collecting ol "diet" qs'
                (PyDict.set ans "diet_pref" (PyStr.strip message))
                (idx + 1)) in
  run (chat_handler o message h (Some (collecting ol "diet" qs ans idx))) w
  = run (count_message ;; ret reply) w
  /\ (healthy w ->
      run (chat_handler o message h (Some (collecting ol "diet" qs ans idx))) w
      = inr (reply, after_message w))
  /\ fst allergy_slot = "allergy_list"
  /\ nth_error qs' (Z.to_nat (idx + 1)) = Some allergy_slot
  /\ length qs' = S (length qs)
  /\ (reachable (collecting ol "diet" qs ans idx) ->
      length qs = 8%nat /\ length qs' = 9%nat).
Proof.
  intros Hi Hnth Hyes qs' reply.
  assert (Hlt : (Z.to_nat idx < length qs)%nat)
    by (apply nth_error_Some; congruence).
  assert (Hrange : 0 <= idx < PyList.len qs) by (unfold PyList.len; lia).
  assert (Hins : PyList.insert qs (idx + 1) allergy_slot = qs')
    by (apply splice_after; assumption).
  assert (Hlen : length qs' = S (length qs)).
  { rewrite <- Hins. unfold PyList.insert. rewrite splice_length. cbn. lia. }
  assert (E : run (chat_handler o message h
                     (Some (collecting ol "diet" qs ans idx))) w
              = run (count_message ;; ret reply) w).
  { rewrite (allergy_turn o message h w ol "diet" qs ans idx
               ("diet_pref", prompt)).
    - unfold reply. rewrite <- Hins. unfold heard, answered, append.
      rewrite <- app_assoc. reflexivity.
    - apply index_nth; assumption.
    - apply allergy_rule_true. auto. }
  split; [exact E |].
  split; [intros H; rewrite E, run_counted by assumption; reflexivity |].
  split; [reflexivity | split; [| split; [exact Hlen |]]].
  - rewrite <- Hins. apply (splice_after_nth qs idx). assumption.
  - intros Hr. destruct (diet_pref_is_last _ _ _ _ _ Hr Hnth) as [E8 _].
    rewrite Hlen, E8. split; reflexivity.
Qed.

(** The answer "yes" followed by an EM SPACE, U+2003. *)
Lemma allergy_answer_inserts_slot_witness :
  let message :=
    "yes" ++ String (ascii_of_N 226)
                    (String (ascii_of_N 128) (String (ascii_of_N 131) "")) in
  let qs' := (firstn 8 (base_questions_for_flow "diet") ++ [allergy_slot]
              ++ skipn 8 (base_questions_for_flow "diet"))%list in
  let reply :=
    ([user_msg message;
      assistant_msg
        "Please specify your allergies (e.g., dairy, peanuts, gluten, soy, egg)."],
     collecting (Some "English") "diet" qs'
                (PyDict.set diet_answers "diet_pref" "yes") 8) in
  run (chat_handler oracle_up message (Some []) (Some diet_at_diet_pref))
      fresh_world
  = run (count_message ;; ret reply) fresh_world
  /\ (healthy fresh_world ->
      run (chat_handler oracle_up message (Some []) (Some diet_at_diet_pref))
          fresh_world
      = inr (reply, after_message fresh_world))
  /\ fst allergy_slot = "allergy_list"
  /\ nth_error qs' 8 = Some allergy_slot
  /\ length qs' = 9%nat
  /\ (reachable diet_at_diet_pref ->
      length (base_questions_for_flow "diet") = 8%nat /\ length qs' = 9%nat).
Proof.
  apply (allergy_answer_inserts_slot oracle_up
           ("yes" ++ String (ascii_of_N 226)
                       (String (ascii_of_N 128) (String (ascii_of_N 131) "")))
           (Some []) fresh_world
           (Some "English") (base_questions_for_flow "diet") diet_answers 7
           "Any dietary preferences or allergies? (If none, type 'no')").
  - lia.
  - reflexivity.
  - vm_compute. tauto.
Defined.

(** C10.  In the diet flow, when the slot answered is [diet_pref] and
    the lowercased, trimmed answer is none of the six phrases, line 410 is
    reached with the queue as it was: no [allergy_list] slot is inserted.
    In a healthy world the turn returns; whenever it returns, it has
    asked the next slot of that queue or completed the flow, and in a
    conversation the queue is the 8 base slots and the turn completes the
    flow.  "yes, peanuts" and "I am allergic to dairy" are such
    answers. *)
Theorem inexact_answer_inserts_nothing o message h w l
  (qs : list Slot) ans idx prompt :
  0 <= idx ->
  nth_error qs (Z.to_nat idx) = Some ("diet_pref", prompt) ->
  ~ In (PyStr.strip (PyStr.lower message)) allergy_phrases ->
  let s := collecting (Some l) "diet" qs ans idx in
  let ans' := PyDict.set ans "diet_pref" (PyStr.strip message) in
  run (collect_answer message (heard h message) s) w
  = inr (inr (collecting (Some l) "diet" qs ans' (idx + 1)), w)
  /\ (healthy w ->
      exists h' s' w',
        run (chat_handler o message h (Some s)) w = inr (h', s', w'))
  /\ (forall h' s' w',
        run (chat_handler o message h (Some s)) w = inr (h', s', w') ->
        (s' = collecting (Some l) "diet" qs ans' (idx + 1)
         \/ s' = reset_state l /\ idx + 1 = PyList.len qs)
        /\ (reachable s ->
            qs = base_questions_for_flow "diet" /\ length qs = 8%nat
            /\ s' = reset_state l))
  /\ ~ In (PyStr.strip (PyStr.lower "yes, peanuts")) allergy_phrases
  /\ ~ In (PyStr.strip (PyStr.lower "I am allergic to dairy")) allergy_phrases.
Proof.
  intros Hi Hnth Hno s ans'.
  assert (Hlt : (Z.to_nat idx < length qs)%nat)
    by (apply nth_error_Some; congruence).
  assert (Hslot : PyList.index qs idx = inr ("diet_pref", prompt))
    by (apply index_nth; assumption).
  assert (Hrule : allergy_rule "diet" "diet_pref" message = false).
  { apply allergy_rule_false. intros (_ & _ & H). contradiction. }
  assert (Hrules : shopping_rules "diet" "diet_pref" message idx qs = qs)
    by (apply shopping_rules_other; discriminate).
  split; [| split; [| split]].
  - unfold s. rewrite (collect_answer_run _ _ _ _ _ _ _ _ _ Hslot).
    cbv zeta. cbn [fst]. rewrite Hrule, Hrules. reflexivity.
  - intros H.
    destruct (nth_error qs (Z.to_nat (idx + 1))) as [next |] eqn:Hnext.
    + eexists. eexists. eexists. unfold s.
      rewrite (asking_turn o message h w (Some l) "diet" qs ans idx
                 ("diet_pref", prompt) next);
        [| assumption | assumption | lia
         | cbn [fst]; rewrite Hrules; exact Hnext].
      rewrite run_counted by assumption. reflexivity.
    + apply nth_error_None in Hnext.
      destruct (completing_turn_healthy o message h w l "diet" qs ans idx
                  ("diet_pref", prompt)) as (w' & Hrun & _);
        [assumption | assumption
         | cbn [fst]; rewrite Hrules; unfold PyList.len; lia
         | assumption |].
      eexists. eexists. eexists. exact Hrun.
  - intros h' s' w' Hrun.
    destruct (nth_error qs (Z.to_nat (idx + 1))) as [next |] eqn:Hnext.
    + unfold s in Hrun.
      rewrite (asking_turn o message h w (Some l) "diet" qs ans idx
                 ("diet_pref", prompt) next) in Hrun;
        [| assumption | assumption | lia
         | cbn [fst]; rewrite Hrules; exact Hnext].
      apply counted_ret_inv in Hrun. injection Hrun as _ ->.
      cbn [fst]. rewrite Hrules. split; [left; reflexivity |].
      intros Hr. destruct (diet_pref_is_last _ _ _ _ _ Hr Hnth) as [-> ->].
      discriminate Hnext.
    + apply nth_error_None in Hnext.
      assert (Hs' : s' = reset_state l).
      { apply (completing_turn_state o message h w l "diet" qs ans idx
                 ("diet_pref", prompt) h' s' w'); try assumption.
        cbn [fst]. rewrite Hrules. unfold PyList.len. lia. }
      split; [right; split; [exact Hs' | unfold PyList.len; lia] |].
      intros Hr. destruct (diet_pref_is_last _ _ _ _ _ Hr Hnth) as [-> ->].
      repeat split. exact Hs'.
  - split; vm_compute; intuition discriminate.
Qed.

Lemma inexact_answer_inserts_nothing_witness :
  let s := diet_at_diet_pref in
  let ans' := PyDict.set diet_answers "diet_pref" "yes, peanuts" in
  run (collect_answer "yes, peanuts" (heard (Some []) "yes, peanuts") s)
      fresh_world
  = inr (inr (collecting (Some "English") "diet"
                (base_questions_for_flow "diet") ans' 8),
         fresh_world)
  /\ (healthy fresh_world ->
      exists h' s' w',
        run (chat_handler oracle_up "yes, peanuts" (Some []) (Some s))
            fresh_world = inr (h', s', w'))
  /\ (forall h' s' w',
        run (chat_handler oracle_up "yes, peanuts" (Some []) (Some s))
            fresh_world = inr (h', s', w') ->
        (s' = collecting (Some "English") "diet"
                (base_questions_for_flow "diet") ans' 8
         \/ s' = reset_state "English"
            /\ 7 + 1 = PyList.len (base_questions_for_flow "diet"))
        /\ (reachable s ->
            base_questions_for_flow "diet" = base_questions_for_flow "diet"
            /\ length (base_questions_for_flow "diet") = 8%nat
            /\ s' = reset_state "English"))
  /\ ~ In (PyStr.strip (PyStr.lower "yes, peanuts")) allergy_phrases
  /\ ~ In (PyStr.strip (PyStr.lower "I am allergic to dairy")) allergy_phrases.
Proof.
  apply (inexact_answer_inserts_nothing oracle_up "yes, peanuts" (Some [])
           fresh_world "English" (base_questions_for_flow "diet")
           diet_answers 7
           "Any dietary preferences or allergies? (If none, type 'no')").
  - lia.
  - reflexivity.
  - vm_compute. intuition discriminate.
Defined.

(** C5, as amended.  For every flow name other than diet, shopping and
    travel the catalog lookup returns the empty list and nothing else
    happens: no exception is raised, nothing is logged, the world is as
    before. *)
Theorem unknown_flow_is_silent fl w :
  ~ In fl ["diet"; "shopping"; "travel"] ->
  base_questions_for_flow fl = []
  /\ run (call_base_questions_for_flow fl) w = inr ([], w)
  /\ ~ loud (call_base_questions_for_flow fl) w.
Proof.
  intros Hfl.
  assert (E : base_questions_for_flow fl = []).
  { unfold base_questions_for_flow.
    destruct (String.eqb_spec fl "diet") as [-> | _];
      [exfalso; apply Hfl; cbn; tauto |].
    destruct (String.eqb_spec fl "shopping") as [-> | _];
      [exfalso; apply Hfl; cbn; tauto |].
    destruct (String.eqb_spec fl "travel") as [-> | _];
      [exfalso; apply Hfl; cbn; tauto | reflexivity]. }
  assert (R : run (call_base_questions_for_flow fl) w = inr ([], w)).
  { unfold call_base_questions_for_flow. rewrite E. reflexivity. }
  split; [exact E | split; [exact R |]].
  unfold loud. rewrite R. intros H. apply H. reflexivity.
Qed.

Lemma unknown_flow_is_silent_witness :
  base_questions_for_flow "fitness" = []
  /\ run (call_base_questions_for_flow "fitness") fresh_world
     = inr ([], fresh_world)
  /\ ~ loud (call_base_questions_for_flow "fitness") fresh_world.
Proof.
  apply (unknown_flow_is_silent "fitness" fresh_world).
  vm_compute. intuition discriminate.
Defined.

(** C5 as stated fails: the lookup of the unknown flow "fitness" is not
    loud. *)
Lemma unknown_flow_not_loud :
  ~ In "fitness" ["diet"; "shopping"; "travel"]
  /\ ~ loud (call_base_questions_for_flow "fitness") fresh_world.
Proof.
  split; [vm_compute; intuition discriminate |].
  vm_compute. intros H. apply H. reflexivity.
Qed.


(** C6, as amended.  A queue loaded at flow selection is never empty: the
    turn counts the message and the session, asks the first question and
    in a healthy world returns.  A collecting turn on an empty queue
    never returns: after the count of the message it faults with
    [IndexError] at line 367, whatever the cursor; nothing is
    dispatched. *)
Theorem empty_queue_faults o message h w :
  (forall l,
     In (PyStr.strip (PyStr.lower message)) ["diet"; "shopping"; "travel"] ->
     exists slot rest,
       base_questions_for_flow (PyStr.strip (PyStr.lower message))
       = slot :: rest
       /\ let reply :=
            ((or_empty h ++
              [user_msg message; assistant_msg (snd slot)])%list,
             collecting (Some l) (PyStr.strip (PyStr.lower message))
                        (slot :: rest) [] 0) in
          run (chat_handler o message h (Some (reset_state l))) w
          = run (count_message ;; count_session ;; ret reply) w
          /\ (healthy w ->
              run (chat_handler o message h (Some (reset_state l))) w
              = inr (reply, after_selection (after_message w))))
  /\ (forall ol fl ans idx,
        run (chat_handler o message h (Some (collecting ol fl [] ans idx))) w
        = run (count_message ;; raise IndexError) w
        /\ (healthy w ->
            run (chat_handler o message h
                   (Some (collecting ol fl [] ans idx))) w
            = inl IndexError)
        /\ forall r,
             run (chat_handler o message h
                    (Some (collecting ol fl [] ans idx))) w
             <> inr r).
Proof.
  split.
  - intros l Hm. apply mem_In in Hm.
    destruct (base_questions_first _ Hm) as (slot & rest & E).
    exists slot, rest. split; [exact E |]. intros reply.
    assert (Eq : run (chat_handler o message h (Some (reset_state l))) w
                 = run (count_message ;; count_session ;; ret reply) w).
    { rewrite chat_handler_choose_flow by reflexivity. cbv zeta.
      rewrite Hm, E. unfold reply, append. rewrite <- app_assoc.
      reflexivity. }
    split; [exact Eq |]. intros H.
    rewrite Eq, run_counted by assumption.
    destruct (count_message_healthy w H) as (_ & H1).
    rewrite run_bind, (proj1 (count_session_healthy _ H1)). reflexivity.
  - intros ol fl ans idx.
    assert (Eq : run (chat_handler o message h
                        (Some (collecting ol fl [] ans idx))) w
                 = run (count_message ;; raise IndexError) w).
    { rewrite chat_handler_collecting by reflexivity.
      apply run_bind_ext. intros [] w1. cbv zeta. rewrite run_bind.
      rewrite collect_answer_out_of_range by apply index_nil.
      reflexivity. }
    split; [exact Eq | split].
    + intros H. rewrite Eq, run_counted by assumption. reflexivity.
    + intros r Hr. rewrite Eq, run_bind in Hr.
      destruct (run count_message w) as [e | [[] w1]]; discriminate Hr.
Qed.

Lemma empty_queue_faults_witness :
  (exists slot rest,
     base_questions_for_flow (PyStr.strip (PyStr.lower "Travel"))
     = slot :: rest
     /\ let reply :=
          ([user_msg "Travel"; assistant_msg (snd slot)],
           collecting (Some "Telugu") (PyStr.strip (PyStr.lower "Travel"))
                      (slot :: rest) [] 0) in
        run (chat_handler oracle_up "Travel" (Some [])
               (Some (reset_state "Telugu"))) fresh_world
        = run (count_message ;; count_session ;; ret reply) fresh_world
        /\ (healthy fresh_world ->
            run (chat_handler oracle_up "Travel" (Some [])
                   (Some (reset_state "Telugu"))) fresh_world
            = inr (reply, after_selection (after_message fresh_world))))
  /\ run (chat_handler oracle_up "Travel" (Some [])
            (Some (collecting (Some "Telugu") "travel" [] [] 0))) fresh_world
     = inl IndexError.
Proof.
  split.
  - apply (proj1 (empty_queue_faults oracle_up "Travel" (Some []) fresh_world)
             "Telugu").
    vm_compute. tauto.
  - apply (proj2 (empty_queue_faults oracle_up "Travel" (Some []) fresh_world)).
    exact healthy_fresh_world.
Defined.

(** C6 as stated fails: a collecting turn on an empty queue raises
    [IndexError]; it returns no state and dispatches nothing. *)
Lemma empty_queue_raises :
  run (chat_handler oracle_up "31" (Some [])
         (Some (collecting (Some "English") "diet" [] [] 0))) fresh_world
  = inl IndexError
  /\ ~ exists h' s' w',
         run (chat_handler oracle_up "31" (Some [])
                (Some (collecting (Some "English") "diet" [] [] 0)))
             fresh_world = inr (h', s', w')
         /\ stage s' = Some "choose_flow".
Proof.
  split; [reflexivity |].
  intros (h' & s' & w' & H & _). discriminate H.
Qed.




(** ** A metrics file that does not parse *)

(** When the metrics file is there and cannot be parsed, [load_json]
    returns its default, the empty dict; line 308 then raises [KeyError]
    on every call of the handler, whatever the state and the message. *)
Lemma unparsable_metrics_file_raises o message h os memory_found writes :
  run (chat_handler o message h os) (startup Garbage memory_found writes)
  = inl (KeyError "total_messages").
Proof.
  unfold chat_handler. cbv zeta. rewrite run_bind, run_metrics_incr.
  reflexivity.
Qed.
